(** * perplexity_cli: provider routing, response normalisation, text post-processing

    A shallow embedding of [perplexity_cli/config.py] and
    [perplexity_cli/main.py], followed by the properties of the
    natural-language specification that were checked against it.

    Conventions.
    - Python [str] values are [string]s; a character stands for one code
      point below 256, which is the range the character-wise operations
      ([str.strip], the regular expression) are modelled on.  Literals of
      the source holding other characters are kept as their UTF-8 bytes.
    - Values decoded from a response body are [json] terms.  Numbers are
      integers; the textual form Python's [str()] gives to a value that is
      not a string is left as a parameter ([py_repr]) of the definitions
      that interpolate values into text.
    - A computation either returns, leaves through [emit_error] (a
      structured error on stderr, then [typer.Exit]), or raises an
      exception nobody catches: see [Outcome].
    - A record is written in structured mode only when [orjson.dumps]
      accepts it: see [dumps_ok]. *)

From Stdlib Require Import ZArith List String Ascii Bool Lia.
From Stdlib Require Import Numbers.DecimalString.
Import ListNotations.
Set Warnings "-register-all".
Open Scope string_scope.
Open Scope Z_scope.

(** ** Python values and primitives *)

Module Py.

Inductive json : Type :=
| JNull
| JBool (b : bool)
| JNum (z : Z)
| JStr (s : string)
| JArr (items : list json)
| JObj (fields : list (string * json)).

(** Exceptions the modelled code can let escape. *)
Inductive PyExn : Type :=
| KeyError
| IndexError
| TypeError
| AttributeError
| JSONDecodeError
| TransportError.

(** [bool(x)]: the truth value Python gives to [x]. *)
Definition truthy (x : json) : bool :=
  match x with
  | JNull => false
  | JBool b => b
  | JNum z => negb (z =? 0)
  | JStr s => negb (s =? "")%string
  | JArr l => match l with [] => false | _ => true end
  | JObj kv => match kv with [] => false | _ => true end
  end.

Definition str_truthy (s : string) : bool := negb (s =? "")%string.

(** [str(n)] for an integer. *)
Definition str_of_Z (z : Z) : string := NilZero.string_of_int (Z.to_int z).
Definition str_of_nat (n : nat) : string := str_of_Z (Z.of_nat n).

(** [sep.join(parts)]. *)
Fixpoint join (sep : string) (parts : list string) : string :=
  match parts with
  | [] => ""
  | [p] => p
  | p :: rest => p ++ sep ++ join sep rest
  end.

(** Lookup in a dict whose keys are strings.  The keys of a decoded object
    are distinct, so that the first binding found is the binding. *)
Fixpoint assoc (k : string) (kv : list (string * json)) : option json :=
  match kv with
  | [] => None
  | (k', v) :: rest => if (k =? k')%string then Some v else assoc k rest
  end.

(** [str.isspace] on one character (code points below 256). *)
Definition is_space (c : ascii) : bool :=
  let n := nat_of_ascii c in
  ((9 <=? n) && (n <=? 13) || (28 <=? n) && (n <=? 32)
   || (n =? 133) || (n =? 160))%nat.

Fixpoint lstrip (s : string) : string :=
  match s with
  | EmptyString => EmptyString
  | String c rest => if is_space c then lstrip rest else s
  end.

Fixpoint rstrip (s : string) : string :=
  match s with
  | EmptyString => EmptyString
  | String c rest =>
      match rstrip rest with
      | EmptyString => if is_space c then EmptyString else String c EmptyString
      | r => String c r
      end
  end.

(** [s.strip()] *)
Definition strip (s : string) : string := rstrip (lstrip s).

Fixpoint drop (n : nat) (s : string) : string :=
  match n, s with
  | O, _ => s
  | S k, EmptyString => EmptyString
  | S k, String _ rest => drop k rest
  end.

(** [s.startswith(p)] *)
Fixpoint startswith (s p : string) {struct p} : bool :=
  match p with
  | EmptyString => true
  | String a p' =>
      match s with
      | EmptyString => false
      | String b s' => Ascii.eqb a b && startswith s' p'
      end
  end.

(** [s.find(needle)]: offset of the first occurrence, if any. *)
Fixpoint find (needle s : string) : option nat :=
  if startswith s needle then Some O
  else match s with
       | EmptyString => None
       | String _ rest => option_map S (find needle rest)
       end.

End Py.
Export Py.

(** ** Outcomes of a computation *)

(** The payload [emit_error] serialises under the key "error". *)
Record ErrorInfo : Type := mkError {
  message : string;
  code : Z;
  retryable : bool;
  remediation : string
}.

Inductive Outcome (A : Type) : Type :=
| Ok (a : A)
| Exit (exit_code : Z) (err : ErrorInfo)
| Raise (e : PyExn).
Arguments Ok {A} a.
Arguments Exit {A} exit_code err.
Arguments Raise {A} e.

Definition bind {A B : Type} (c : Outcome A) (k : A -> Outcome B) : Outcome B :=
  match c with
  | Ok a => k a
  | Exit n e => Exit n e
  | Raise e => Raise e
  end.

Declare Scope outcome_scope.
Delimit Scope outcome_scope with outcome.
Notation "x <- c ;; k" := (bind c (fun x => k))
  (at level 61, c at next level, right associativity) : outcome_scope.
Notation "c ;;; k" := (bind c (fun _ => k))
  (at level 61, right associativity) : outcome_scope.
Open Scope outcome_scope.

(** ** config.py *)

Module Config.

Inductive Provider : Type := perplexity | openrouter.

Definition Provider_eqb (a b : Provider) : bool :=
  match a, b with
  | perplexity, perplexity | openrouter, openrouter => true
  | _, _ => false
  end.

(** [Provider.value] *)
Definition value (p : Provider) : string :=
  match p with
  | perplexity => "perplexity"
  | openrouter => "openrouter"
  end.

Definition MODELS : list (Provider * list (string * string)) :=
  [ (perplexity, [ ("ask", "sonar-pro");
                   ("research", "sonar-deep-research");
                   ("reason", "sonar-reasoning-pro") ]);
    (openrouter, [ ("ask", "perplexity/sonar-pro");
                   ("research", "perplexity/sonar-deep-research");
                   ("reason", "perplexity/sonar-reasoning") ]) ].

(** A dict with one entry per provider: a total function. *)
Definition BASE_URLS (p : Provider) : string :=
  match p with
  | perplexity => "https://api.perplexity.ai"
  | openrouter => "https://openrouter.ai/api/v1"
  end.

(** [d[p]] for a dict keyed by providers. *)
Fixpoint by_provider {V : Type} (d : list (Provider * V)) (p : Provider)
  : Outcome V :=
  match d with
  | [] => Raise KeyError
  | (p', v) :: rest => if Provider_eqb p p' then Ok v else by_provider rest p
  end.

(** [d[k]] for a dict from strings to strings. *)
Fixpoint by_name (d : list (string * string)) (k : string) : Outcome string :=
  match d with
  | [] => Raise KeyError
  | (k', v) :: rest => if (k =? k')%string then Ok v else by_name rest k
  end.

Record Settings : Type := mkSettings {
  perplexity_api_key : string;
  openrouter_api_key : string;
  perplexity_base_url : string;
  perplexity_timeout_ms : Z
}.

(** What [import keyring; keyring.get_password(service, username)] does:
    it returns a password, returns [None], or raises an [Exception] (a
    missing module, a locked or absent backend, ...). *)
Inductive KeyringReply : Type :=
| Password (val : string)
| NoPassword
| KeyringFailure.

Definition Keyring : Type := string -> string -> KeyringReply.

Definition getattr (self : Settings) (field_name : string) : string :=
  if (field_name =? "perplexity_api_key")%string then perplexity_api_key self
  else if (field_name =? "openrouter_api_key")%string then openrouter_api_key self
  else perplexity_base_url self.

(** [object.__setattr__(self, field_name, val)] for the two secrets. *)
Definition setattr (self : Settings) (field_name val : string) : Settings :=
  if (field_name =? "perplexity_api_key")%string then
    mkSettings val (openrouter_api_key self)
               (perplexity_base_url self) (perplexity_timeout_ms self)
  else if (field_name =? "openrouter_api_key")%string then
    mkSettings (perplexity_api_key self) val
               (perplexity_base_url self) (perplexity_timeout_ms self)
  else self.

(** The body of the loop of [_keyring_fallback] for one field.  The [try]
    covers the import and the lookup; [except Exception: pass] leaves the
    field as it was. *)
Definition fallback_field (kr : Keyring) (self : Settings) (field_name : string)
  : Settings :=
  if str_truthy (getattr self field_name) then self
  else match kr "perplexity" field_name with
       | Password val =>
           if str_truthy val then setattr self field_name val else self
       | NoPassword => self
       | KeyringFailure => self
       end.

Definition _keyring_fallback (kr : Keyring) (self : Settings) : Settings :=
  fold_left (fallback_field kr) ["perplexity_api_key"; "openrouter_api_key"] self.

Definition api_key (self : Settings) (provider : Provider) : string :=
  if Provider_eqb provider perplexity then perplexity_api_key self
  else openrouter_api_key self.

Definition base_url (self : Settings) (provider : Provider) : string :=
  if str_truthy (perplexity_base_url self) && Provider_eqb provider perplexity
  then perplexity_base_url self
  else BASE_URLS provider.

End Config.
Export Config.

(** ** main.py *)

Module Format.
Inductive t : Type := json | text.
End Format.

(** One write on standard output: [typer.echo(s)] prints [s] and a newline,
    [Dump d] stands for [sys.stdout.buffer.write(orjson.dumps(d) + b"\n")]. *)
Inductive Stdout : Type :=
| Echo (s : string)
| Dump (data : json).

(** The HTTP exchange: [httpx.post(url, headers=..., json=..., timeout=...)].
    The request keeps the timeout in milliseconds, as the callers give it;
    the division by 1000.0 that turns it into seconds is not modelled. *)
Record HttpRequest : Type := mkRequest {
  url : string;
  req_headers : list (string * string);
  req_json : json;
  req_timeout_ms : Z
}.

Record HttpResponse : Type := mkResponse {
  status_code : Z;
  headers : list (string * string);
  resp_text : string;
  decoded : option json   (* [resp.json()], [None] when the body is not JSON *)
}.

Inductive PostReply : Type :=
| Responded (resp : HttpResponse)
| TimeoutException
| ConnectError (e : string)    (* [e] is [str(e)] *)
| OtherFailure.                (* any other exception of the transport *)

Definition Transport : Type := HttpRequest -> PostReply.

Definition nl : string := String (ascii_of_nat 10) "".

Definition lower_char (c : ascii) : ascii :=
  let n := nat_of_ascii c in
  if ((65 <=? n) && (n <=? 90))%nat then ascii_of_nat (n + 32) else c.

Fixpoint lower (s : string) : string :=
  match s with
  | EmptyString => EmptyString
  | String c rest => String (lower_char c) (lower rest)
  end.

(** [resp.headers.get(name, default)]: names compare without case, the
    values of a repeated header are joined. *)
Definition headers_get (h : list (string * string)) (name default : string)
  : string :=
  match map snd (filter (fun kv => (lower (fst kv) =? lower name)%string) h) with
  | [] => default
  | items => join ", " items
  end.

Definition resp_json (resp : HttpResponse) : Outcome json :=
  match decoded resp with
  | Some data => Ok data
  | None => Raise JSONDecodeError
  end.

(** Subscripts: [obj["key"]] and [obj[i]]. *)
Inductive Subscript : Type :=
| Key (k : string)
| Idx (i : nat).

Fixpoint nth_char (i : nat) (s : string) : option string :=
  match s, i with
  | EmptyString, _ => None
  | String c _, O => Some (String c EmptyString)
  | String _ rest, S k => nth_char k rest
  end.

Definition getitem (obj : json) (sub : Subscript) : Outcome json :=
  match obj, sub with
  | JObj kv, Key k =>
      match assoc k kv with Some v => Ok v | None => Raise KeyError end
  | JObj _, Idx _ => Raise KeyError
  | JArr l, Idx i =>
      match nth_error l i with Some v => Ok v | None => Raise IndexError end
  | JStr s, Idx i =>
      match nth_char i s with Some c => Ok (JStr c) | None => Raise IndexError end
  | _, _ => Raise TypeError
  end.

(** [obj[s1][s2]...] *)
Fixpoint subscripts (obj : json) (path : list Subscript) : Outcome json :=
  match path with
  | [] => Ok obj
  | sub :: rest => v <- getitem obj sub ;; subscripts v rest
  end.

(** [obj.get(key, default)] *)
Definition py_get (obj : json) (key : string) (default : json) : Outcome json :=
  match obj with
  | JObj kv => Ok (match assoc key kv with Some v => v | None => default end)
  | _ => Raise AttributeError
  end.

Fixpoint chars (s : string) : list json :=
  match s with
  | EmptyString => []
  | String c rest => JStr (String c EmptyString) :: chars rest
  end.

(** What a [for] loop, [enumerate] or a comprehension iterates over. *)
Definition iterate (x : json) : Outcome (list json) :=
  match x with
  | JArr l => Ok l
  | JStr s => Ok (chars s)
  | JObj kv => Ok (map (fun kv => JStr (fst kv)) kv)
  | _ => Raise TypeError
  end.

(** [len(x)] *)
Definition py_len (x : json) : Outcome nat :=
  match x with
  | JArr l => Ok (List.length l)
  | JStr s => Ok (String.length s)
  | JObj kv => Ok (List.length kv)
  | _ => Raise TypeError
  end.

(** [enumerate(l, start)] *)
Fixpoint enumerate {A : Type} (start : Z) (l : list A) : list (Z * A) :=
  match l with
  | [] => []
  | x :: rest => (start, x) :: enumerate (start + 1) rest
  end.

(** [l.append(x)] *)
Definition append {A : Type} (l : list A) (x : A) : list A := app l [x].

(** [a + b] where [b] is a string. *)
Definition add_str (a : json) (b : string) : Outcome string :=
  match a with
  | JStr s => Ok (s ++ b)
  | _ => Raise TypeError
  end.

Section Main.

(** [str(x)] for a value that is not a string. *)
Variable py_repr : json -> string.

(** A value interpolated in an f-string. *)
Definition fmt (x : json) : string :=
  match x with
  | JStr s => s
  | _ => py_repr x
  end.

(** What [typer.echo(x)] prints before the newline. *)
Definition echo (x : json) : Stdout :=
  match x with
  | JStr s => Echo s
  | JNull => Echo ""
  | _ => Echo (py_repr x)
  end.

(** [orjson.dumps] serialises integers of 64 bits, from the least signed
    to the greatest unsigned one, and values nested up to 255 lists and
    dicts deep; on any other value it raises [JSONEncodeError], which is a
    [TypeError]. *)
Definition int_fits (z : Z) : bool :=
  (- 9223372036854775808 <=? z) && (z <=? 18446744073709551615).

Fixpoint ints_fit (x : json) : bool :=
  match x with
  | JNum z => int_fits z
  | JArr items =>
      (fix all (l : list json) : bool :=
         match l with
         | [] => true
         | y :: rest => ints_fit y && all rest
         end) items
  | JObj fields =>
      (fix all (l : list (string * json)) : bool :=
         match l with
         | [] => true
         | kv :: rest => ints_fit (snd kv) && all rest
         end) fields
  | _ => true
  end.

(** The number of lists and dicts around the innermost value. *)
Fixpoint depth (x : json) : nat :=
  match x with
  | JArr items =>
      S ((fix deepest (l : list json) : nat :=
            match l with
            | [] => O
            | y :: rest => Nat.max (depth y) (deepest rest)
            end) items)
  | JObj fields =>
      S ((fix deepest (l : list (string * json)) : nat :=
            match l with
            | [] => O
            | kv :: rest => Nat.max (depth (snd kv)) (deepest rest)
            end) fields)
  | _ => O
  end.

(** Whether [orjson.dumps(x)] returns. *)
Definition dumps_ok (x : json) : bool :=
  ints_fit x && (depth x <=? 255)%nat.

Definition emit (data : json) (fmt_ : Format.t) : Outcome (list Stdout) :=
  match fmt_ with
  | Format.json => if dumps_ok data then Ok [Dump data] else Raise TypeError
  | Format.text =>
      match data with
      | JObj kv =>
          match assoc "data" kv with
          | Some (JStr payload) => Ok [Echo payload]
          | Some (JObj payload) =>
              Ok (map (fun kv => Echo (fst kv ++ ": " ++ fmt (snd kv))) payload)
          | Some (JArr payload) => Ok (map echo payload)
          | Some _ => Ok []
          | None => Ok [echo data]
          end
      | _ => Ok [echo data]
      end
  end.

(** The envelope goes to stderr, then [typer.Exit(code)] is raised. *)
Definition emit_error {A : Type} (message : string) (code : Z)
  (retryable : bool) (remediation : string) : Outcome A :=
  Exit code (mkError message code retryable remediation).

Definition error_envelope (e : ErrorInfo) : json :=
  JObj [ ("status", JStr "error");
         ("error", JObj [ ("message", JStr (message e));
                          ("code", JNum (code e));
                          ("retryable", JBool (retryable e));
                          ("remediation", JStr (remediation e)) ]) ].

Variable settings : Settings.

Definition _resolve_provider (provider : option Provider) (command : string)
  : Outcome Provider :=
  if (command =? "search")%string then
    (match provider with
     | Some openrouter =>
         emit_error
           "The search command is only available via the Perplexity API (not OpenRouter)."
           2 false "Use --provider perplexity or set PERPLEXITY_API_KEY"
     | _ => Ok tt
     end) ;;;
    Ok perplexity
  else
    match provider with
    | Some p => Ok p
    | None =>
        if str_truthy (perplexity_api_key settings) then Ok perplexity
        else if str_truthy (openrouter_api_key settings) then Ok openrouter
        else Ok perplexity
    end.

Definition _require_auth (provider : Provider) : Outcome unit :=
  let key := api_key settings provider in
  if negb (str_truthy key) then
    let var := if Provider_eqb provider perplexity
               then "PERPLEXITY_API_KEY" else "OPENROUTER_API_KEY" in
    emit_error (var ++ " not set") 4 false
               ("Set " ++ var ++ " env var or run: install.sh")
  else Ok tt.

Definition _headers (provider : Provider) : list (string * string) :=
  [ ("Content-Type", "application/json");
    ("Authorization", "Bearer " ++ api_key settings provider) ].

(** Length of the match of [<think>.*?</think>] (flag DOTALL) anchored at
    the start of [s]: the opening tag, then the shortest run of characters
    that reaches a closing tag. *)
Definition match_think (s : string) : option nat :=
  if startswith s "<think>" then
    match find "</think>" (drop 7 s) with
    | Some k => Some (7 + k + 8)%nat
    | None => None
    end
  else None.

(** [re.sub(r"<think>.*?</think>", "", s, flags=re.DOTALL)]: matches are
    looked for from left to right and do not overlap.  [skip] counts the
    characters of the current match that are still to be dropped. *)
Fixpoint sub_think (skip : nat) (s : string) : string :=
  match s with
  | EmptyString => EmptyString
  | String c rest =>
      match skip with
      | S k => sub_think k rest
      | O =>
          match match_think s with
          | Some len => sub_think (Nat.pred len) rest
          | None => String c (sub_think O rest)
          end
      end
  end.

Definition _strip_thinking (text : string) : string :=
  strip (sub_think O text).

Definition citation_line (iu : Z * json) : string :=
  "[" ++ str_of_Z (fst iu + 1) ++ "] " ++ fmt (snd iu).

Definition _format_citations (citations : json) : Outcome string :=
  if negb (truthy citations) then Ok ""
  else
    items <- iterate citations ;;
    let lines := map citation_line (enumerate 0 items) in
    Ok (nl ++ nl ++ "Citations:" ++ nl ++ join nl lines).

Variable post : Transport.

(** The arguments [_chat_request] hands to [httpx.post]. *)
Definition chat_call (provider : Provider) (model : string)
  (messages : list json) (timeout_ms : Z) : HttpRequest :=
  let url := base_url settings provider ++ "/chat/completions" in
  let body := JObj [("model", JStr model); ("messages", JArr messages)] in
  mkRequest url (_headers provider) body timeout_ms.

Definition _chat_request (provider : Provider) (model : string)
  (messages : list json) (timeout_ms : Z) : Outcome json :=
  match post (chat_call provider model messages timeout_ms) with
  | TimeoutException =>
      emit_error "Request timed out" 7 true
                 "Increase PERPLEXITY_TIMEOUT_MS or try again"
  | ConnectError e => emit_error ("Connection error: " ++ e) 9 true ""
  | OtherFailure => Raise TransportError
  | Responded resp =>
      (if status_code resp =? 429 then
         let retry_after := headers_get (headers resp) "retry-after" "unknown" in
         emit_error ("Rate limited. Retry after " ++ retry_after ++ "s") 8 true ""
       else Ok tt) ;;;
      (if status_code resp =? 401 then
         emit_error "Authentication failed — invalid API key" 4 false
                    "Check your API key"
       else Ok tt) ;;;
      (if status_code resp >=? 400 then
         emit_error ("API error " ++ str_of_Z (status_code resp) ++ ": "
                     ++ resp_text resp)
                    9 (status_code resp >=? 500) ""
       else Ok tt) ;;;
      resp_json resp
  end.

(** The arguments [_search_request] hands to [httpx.post]. *)
Definition search_call (query : string) (max_results max_tokens_per_page : Z)
  (country : option string) (timeout_ms : Z) : HttpRequest :=
  let url := base_url settings perplexity ++ "/search" in
  let body := [ ("query", JStr query);
                ("max_results", JNum max_results);
                ("max_tokens_per_page", JNum max_tokens_per_page) ] in
  let body := match country with
              | Some c => if str_truthy c then append body ("country", JStr c)
                          else body
              | None => body
              end in
  mkRequest url (_headers perplexity) (JObj body) timeout_ms.

Definition _search_request (query : string) (max_results max_tokens_per_page : Z)
  (country : option string) (timeout_ms : Z) : Outcome json :=
  match post (search_call query max_results max_tokens_per_page country
                          timeout_ms) with
  | TimeoutException => emit_error "Request timed out" 7 true ""
  | ConnectError e => emit_error ("Connection error: " ++ e) 9 true ""
  | OtherFailure => Raise TransportError
  | Responded resp =>
      (if status_code resp =? 429 then
         let retry_after := headers_get (headers resp) "retry-after" "unknown" in
         emit_error ("Rate limited. Retry after " ++ retry_after ++ "s") 8 true ""
       else Ok tt) ;;;
      (if status_code resp =? 401 then
         emit_error "Authentication failed — invalid API key" 4 false ""
       else Ok tt) ;;;
      (if status_code resp >=? 400 then
         emit_error ("API error " ++ str_of_Z (status_code resp) ++ ": "
                     ++ resp_text resp)
                    9 (status_code resp >=? 500) ""
       else Ok tt) ;;;
      resp_json resp
  end.

(** The lines one result adds in the loop of [search]. *)
Definition result_lines (ir : Z * json) : Outcome (list string) :=
  let i := fst ir in
  let r := snd ir in
  title <- py_get r "title" (JStr "Untitled") ;;
  let l1 := [str_of_Z i ++ ". **" ++ fmt title ++ "**"] in
  u <- py_get r "url" (JStr "") ;;
  let l2 := append l1 ("   URL: " ++ fmt u) in
  snippet <- py_get r "snippet" JNull ;;
  l3 <- (if truthy snippet then
           s <- getitem r (Key "snippet") ;; Ok (append l2 ("   " ++ fmt s))
         else Ok l2) ;;
  date <- py_get r "date" JNull ;;
  l4 <- (if truthy date then
           d <- getitem r (Key "date") ;; Ok (append l3 ("   Date: " ++ fmt d))
         else Ok l3) ;;
  Ok (append l4 "").

(** The [for] loop of [search]: [lines] grows by the lines of each result. *)
Fixpoint results_loop (lines : list string) (todo : list (Z * json))
  : Outcome (list string) :=
  match todo with
  | [] => Ok lines
  | ir :: rest =>
      added <- result_lines ir ;;
      results_loop (app lines added) rest
  end.

Definition search (query : string) (max_results max_tokens_per_page : Z)
  (country : option string) (format : Format.t) : Outcome (list Stdout) :=
  _require_auth perplexity ;;;
  data <- _search_request query max_results max_tokens_per_page country
                          (perplexity_timeout_ms settings) ;;
  results <- py_get data "results" (JArr []) ;;
  match format with
  | Format.text =>
      if negb (truthy results) then Ok [Echo "No results found."]
      else
        n <- py_len results ;;
        let lines := ["Found " ++ str_of_nat n ++ " search results:" ++ nl] in
        items <- iterate results ;;
        lines <- results_loop lines (enumerate 1 items) ;;
        Ok [Echo (join nl lines)]
  | Format.json =>
      n <- py_len results ;;
      emit (JObj [ ("status", JStr "success");
                   ("data", results);
                   ("metadata", JObj [ ("count", JNum (Z.of_nat n));
                                       ("query", JStr query) ]) ])
           format
  end.

(** The message list the three chat commands build. *)
Definition build_messages (system : option string) (query : string) : list json :=
  let messages :=
    match system with
    | Some s => if str_truthy s
                then [JObj [("role", JStr "system"); ("content", JStr s)]]
                else []
    | None => []
    end in
  append messages (JObj [("role", JStr "user"); ("content", JStr query)]).

(** The model alias [MODELS[prov][command]]. *)
Definition model_for (prov : Provider) (command : string) : Outcome string :=
  d <- by_provider MODELS prov ;; by_name d command.

Definition content_path : list Subscript :=
  [Key "choices"; Idx 0; Key "message"; Key "content"].

Definition ask (query : string) (system : option string)
  (provider : option Provider) (format : Format.t) : Outcome (list Stdout) :=
  prov <- _resolve_provider provider "ask" ;;
  _require_auth prov ;;;
  let messages := build_messages system query in
  model <- model_for prov "ask" ;;
  data <- _chat_request prov model messages (perplexity_timeout_ms settings) ;;
  content <- subscripts data content_path ;;
  citations <- py_get data "citations" (JArr []) ;;
  block <- _format_citations citations ;;
  response_text <- add_str content block ;;
  match format with
  | Format.text => Ok [Echo response_text]
  | Format.json =>
      model' <- py_get data "model" (JStr model) ;;
      usage <- py_get data "usage" JNull ;;
      emit (JObj [ ("status", JStr "success");
                   ("data", JObj [ ("response", JStr response_text);
                                   ("model", model');
                                   ("provider", JStr (value prov));
                                   ("citations", citations);
                                   ("usage", usage) ]) ])
           format
  end.

(** [content = _strip_thinking(content)] *)
Definition strip_content (content : json) : Outcome json :=
  match content with
  | JStr s => Ok (JStr (_strip_thinking s))
  | _ => Raise TypeError
  end.

Definition research (query : string) (system : option string)
  (strip_thinking : bool) (provider : option Provider) (format : Format.t)
  : Outcome (list Stdout) :=
  prov <- _resolve_provider provider "research" ;;
  _require_auth prov ;;;
  let messages := build_messages system query in
  model <- model_for prov "research" ;;
  data <- _chat_request prov model messages (perplexity_timeout_ms settings) ;;
  content <- subscripts data content_path ;;
  content <- (if strip_thinking then strip_content content else Ok content) ;;
  citations <- py_get data "citations" (JArr []) ;;
  block <- _format_citations citations ;;
  response_text <- add_str content block ;;
  match format with
  | Format.text => Ok [Echo response_text]
  | Format.json =>
      model' <- py_get data "model" (JStr model) ;;
      usage <- py_get data "usage" JNull ;;
      emit (JObj [ ("status", JStr "success");
                   ("data", JObj [ ("response", JStr response_text);
                                   ("model", model');
                                   ("provider", JStr (value prov));
                                   ("citations", citations);
                                   ("usage", usage) ]) ])
           format
  end.

Definition reason (query : string) (system : option string)
  (strip_thinking : bool) (provider : option Provider) (format : Format.t)
  : Outcome (list Stdout) :=
  prov <- _resolve_provider provider "reason" ;;
  _require_auth prov ;;;
  let messages := build_messages system query in
  model <- model_for prov "reason" ;;
  data <- _chat_request prov model messages (perplexity_timeout_ms settings) ;;
  content <- subscripts data content_path ;;
  content <- (if strip_thinking then strip_content content else Ok content) ;;
  citations <- py_get data "citations" (JArr []) ;;
  block <- _format_citations citations ;;
  response_text <- add_str content block ;;
  match format with
  | Format.text => Ok [Echo response_text]
  | Format.json =>
      model' <- py_get data "model" (JStr model) ;;
      usage <- py_get data "usage" JNull ;;
      emit (JObj [ ("status", JStr "success");
                   ("data", JObj [ ("response", JStr response_text);
                                   ("model", model');
                                   ("provider", JStr (value prov));
                                   ("citations", citations);
                                   ("usage", usage) ]) ])
           format
  end.

End Main.

(** ** Vocabulary of the statements *)

(** The three commands answered by a chat completion. *)
Definition chat_commands : list string := ["ask"; "research"; "reason"].

(** The settings field that holds the secret of a provider. *)
Definition secret_field (p : Provider) : string :=
  match p with
  | perplexity => "perplexity_api_key"
  | openrouter => "openrouter_api_key"
  end.

(** The classification table of the response normaliser, for a call that
    sends [request] and whose outcome under a transport is [run]. *)
Definition classifies (request : HttpRequest)
  (run : Transport -> Outcome json) : Prop :=
  forall post : Transport,
    (post request = TimeoutException ->
       exists msg rem, run post = Exit 7 (mkError msg 7 true rem))
    /\ (forall e, post request = ConnectError e ->
       exists rem,
         run post = Exit 9 (mkError ("Connection error: " ++ e) 9 true rem))
    /\ (forall resp, post request = Responded resp ->
       status_code resp = 429 ->
       exists rem,
         run post = Exit 8 (mkError
           ("Rate limited. Retry after "
            ++ headers_get (headers resp) "retry-after" "unknown" ++ "s")
           8 true rem))
    /\ (forall resp, post request = Responded resp ->
       status_code resp = 401 ->
       exists msg rem, run post = Exit 4 (mkError msg 4 false rem))
    /\ (forall resp, post request = Responded resp ->
       400 <= status_code resp ->
       status_code resp <> 429 -> status_code resp <> 401 ->
       exists msg retry rem,
         run post = Exit 9 (mkError msg 9 retry rem)
         /\ (retry = true <-> 500 <= status_code resp)).

(** No header of [h] is called [name], whatever the case of its letters. *)
Definition header_absent (h : list (string * string)) (name : string) : Prop :=
  forall k v, In (k, v) h -> lower k <> lower name.

(** The chat request of [command] was sent for provider [prov] with model
    alias [model] and came back with the success body [data]. *)
Definition chat_answered (settings : Settings) (post : Transport)
  (provider : option Provider) (command : string) (system : option string)
  (query : string) (prov : Provider) (model : string) (data : json) : Prop :=
  _resolve_provider settings provider command = Ok prov
  /\ _require_auth settings prov = Ok tt
  /\ model_for prov command = Ok model
  /\ _chat_request settings post prov model (build_messages system query)
                   (perplexity_timeout_ms settings) = Ok data.

(** The search request came back with the success body [data]. *)
Definition search_answered (settings : Settings) (post : Transport)
  (query : string) (max_results max_tokens_per_page : Z)
  (country : option string) (data : json) : Prop :=
  _require_auth settings perplexity = Ok tt
  /\ _search_request settings post query max_results max_tokens_per_page
                     country (perplexity_timeout_ms settings) = Ok data.

(** What the three chat commands do once the success body is there;
    [ask] never strips. *)
Definition chat_tail (py_repr : json -> string) (strip_thinking : bool)
  (format : Format.t) (prov : Provider) (model : string) (data : json)
  : Outcome (list Stdout) :=
  content <- subscripts data content_path ;;
  content <- (if strip_thinking then strip_content content else Ok content) ;;
  citations <- py_get data "citations" (JArr []) ;;
  block <- _format_citations py_repr citations ;;
  response_text <- add_str content block ;;
  match format with
  | Format.text => Ok [Echo response_text]
  | Format.json =>
      model' <- py_get data "model" (JStr model) ;;
      usage <- py_get data "usage" JNull ;;
      emit py_repr
           (JObj [ ("status", JStr "success");
                   ("data", JObj [ ("response", JStr response_text);
                                   ("model", model');
                                   ("provider", JStr (value prov));
                                   ("citations", citations);
                                   ("usage", usage) ]) ])
           format
  end.

(** The success envelope of a chat command in structured mode. *)
Definition chat_envelope (response : string) (model' : json) (prov : Provider)
  (citations usage : json) : json :=
  JObj [ ("status", JStr "success");
         ("data", JObj [ ("response", JStr response);
                         ("model", model');
                         ("provider", JStr (value prov));
                         ("citations", citations);
                         ("usage", usage) ]) ].

(** The response text a caller reads from the output of a chat command:
    the echoed text, or the field "response" of the envelope. *)
Definition response_of (out : Outcome (list Stdout)) : option string :=
  match out with
  | Ok [Echo s] => Some s
  | Ok [Dump d] =>
      match subscripts d [Key "data"; Key "response"] with
      | Ok (JStr s) => Some s
      | _ => None
      end
  | _ => None
  end.

(** [block] is the citation block of the URLs [urls]: a blank line, the
    header, then the line "[i] url" for the i-th URL, counted from 1. *)
Definition is_citation_block (urls : list string) (block : string) : Prop :=
  exists lines : list string,
    block = nl ++ nl ++ "Citations:" ++ nl ++ join nl lines
    /\ List.length lines = List.length urls
    /\ forall i u, nth_error urls i = Some u ->
         nth_error lines i = Some ("[" ++ str_of_nat (S i) ++ "] " ++ u).

(** A text that is empty or starts with a character that is not a space. *)
Definition starts_clean (s : string) : Prop :=
  match s with
  | EmptyString => True
  | String c _ => is_space c = false
  end.

(** The content after the optional strip. *)
Definition processed (strip_thinking : bool) (c : string) : string :=
  if strip_thinking then _strip_thinking c else c.

(** A search result whose fields, when present, are strings. *)
Record Hit : Type := mkHit {
  hit_title : option string;
  hit_url : option string;
  hit_snippet : option string;
  hit_date : option string
}.

Definition field (k : string) (v : option string) : list (string * json) :=
  match v with
  | Some s => [(k, JStr s)]
  | None => []
  end.

Definition hit_fields (h : Hit) : list (string * json) :=
  (field "title" (hit_title h) ++ field "url" (hit_url h)
   ++ field "snippet" (hit_snippet h) ++ field "date" (hit_date h))%list.

(** The record as it arrives in the body. *)
Definition hit_json (h : Hit) : json := JObj (hit_fields h).

Definition or_default (default : string) (v : option string) : string :=
  match v with
  | Some s => s
  | None => default
  end.

(** A line that is there only for a field that is present and not empty. *)
Definition optional_line (label : string) (v : option string) : list string :=
  match v with
  | Some s => if (s =? "")%string then [] else [label ++ s]
  | None => []
  end.

(** The lines of the [i]-th entry of the listing. *)
Definition entry (i : nat) (h : Hit) : list string :=
  app [ str_of_nat i ++ ". **" ++ or_default "Untitled" (hit_title h) ++ "**";
        "   URL: " ++ or_default "" (hit_url h) ]
      (app (optional_line "   " (hit_snippet h))
           (app (optional_line "   Date: " (hit_date h)) [""])).

Fixpoint listing (i : nat) (hits : list Hit) : list string :=
  match hits with
  | [] => []
  | h :: rest => (entry i h ++ listing (S i) rest)%list
  end.

(** Sample configuration and transports used to exercise the statements. *)
Definition sample_settings : Settings := mkSettings "pk" "ok" "" 300000.

Definition sample_repr (x : json) : string := "?".

Definition reply_with (status : Z) (h : list (string * string))
  (body : option json) : Transport :=
  fun _ => Responded (mkResponse status h "" body).

Definition chat_body (content : string) (citations : list string) : json :=
  JObj [ ("choices",
          JArr [JObj [("message", JObj [("content", JStr content)])]]);
         ("citations", JArr (map JStr citations));
         ("model", JStr "m") ].

(** ** The auth status command *)

(** [os.environ]: the value of a variable, if it is set. *)
Definition Environ : Type := string -> option string.

(** [bool(os.environ.get(name))] *)
Definition env_truthy (environ : Environ) (name : string) : bool :=
  match environ name with
  | Some v => str_truthy v
  | None => false
  end.

(** [auth_status] writes its report with [emit] and then either returns
    (exit code 0) or raises [typer.Exit(4)]: when [emit] returns, the
    writes on standard output and the exit code of the process. *)
Definition auth_status (py_repr : json -> string) (settings : Settings)
  (environ : Environ) (format : Format.t) : Outcome (list Stdout * Z) :=
  let perplexity_ok := str_truthy (perplexity_api_key settings) in
  let openrouter_ok := str_truthy (openrouter_api_key settings) in
  let authenticated := perplexity_ok || openrouter_ok in
  let providers := [] in
  let providers :=
    if perplexity_ok then
      let src := if env_truthy environ "PERPLEXITY_API_KEY"
                 then "env" else "keyring" in
      append providers
        ("perplexity",
         JObj [("authenticated", JBool true); ("token_source", JStr src)])
    else
      append providers ("perplexity", JObj [("authenticated", JBool false)]) in
  let providers :=
    if openrouter_ok then
      let src := if env_truthy environ "OPENROUTER_API_KEY"
                 then "env" else "keyring" in
      append providers
        ("openrouter",
         JObj [("authenticated", JBool true); ("token_source", JStr src)])
    else
      append providers ("openrouter", JObj [("authenticated", JBool false)]) in
  let data := [ ("authenticated", JBool authenticated);
                ("providers", JObj providers);
                ("service", JStr "perplexity") ] in
  let data :=
    if negb authenticated then
      append data
        ("remediation",
         JStr "Set PERPLEXITY_API_KEY or OPENROUTER_API_KEY env var")
    else data in
  let result := JObj [("status", JStr "success"); ("data", JObj data)] in
  out <- emit py_repr result format ;;
  Ok (out, if negb authenticated then 4 else 0).

(** ** Further vocabulary *)

(** The environment variable named in the error of [_require_auth]. *)
Definition key_variable (p : Provider) : string :=
  match p with
  | perplexity => "PERPLEXITY_API_KEY"
  | openrouter => "OPENROUTER_API_KEY"
  end.

(** The structured error of a missing credential. *)
Definition missing_key_error (p : Provider) : ErrorInfo :=
  mkError (key_variable p ++ " not set") 4 false
          ("Set " ++ key_variable p ++ " env var or run: install.sh").

(** [P] holds of the value of an outcome that returns, [E] of the exit code
    and error of one that leaves through [emit_error]. *)
Definition sat {A : Type} (P : A -> Prop) (E : Z -> ErrorInfo -> Prop)
  (c : Outcome A) : Prop :=
  match c with
  | Ok a => P a
  | Exit n err => E n err
  | Raise _ => True
  end.

Definition anything {A : Type} (_ : A) : Prop := True.

Definition no_exit (_ : Z) (_ : ErrorInfo) : Prop := False.

(** The exits the commands can take: the process exit code is the code of
    the envelope, one of 4, 7, 8 and 9, and the retryable flag is off for
    4 and on for 7 and 8. *)
Definition command_exit (n : Z) (err : ErrorInfo) : Prop :=
  code err = n
  /\ (n = 4 /\ retryable err = false
      \/ n = 7 /\ retryable err = true
      \/ n = 8 /\ retryable err = true
      \/ n = 9).

(** One record on standard output, of the kind the format asks for. *)
Definition one_record (format : Format.t) (out : list Stdout) : Prop :=
  match format with
  | Format.text => exists s, out = [Echo s]
  | Format.json =>
      exists fields,
        out = [Dump (JObj fields)]
        /\ assoc "status" fields = Some (JStr "success")
  end.

(** Two outcomes that differ at most in the remediation hint. *)
Definition same_but_remediation {A : Type} (a b : Outcome A) : Prop :=
  match a, b with
  | Ok x, Ok y => x = y
  | Exit n e, Exit m f =>
      n = m /\ message e = message f /\ code e = code f
      /\ retryable e = retryable f
  | Raise x, Raise y => x = y
  | _, _ => False
  end.

(** A value that is false in a test and has no length. *)
Definition falsy_unsized (x : json) : Prop :=
  x = JNull \/ x = JBool false \/ x = JNum 0.

(** The chat command of a given name, as the command line dispatches it;
    ask takes no strip flag. *)
Definition run_chat (py_repr : json -> string) (settings : Settings)
  (post : Transport) (command : string) (query : string)
  (system : option string) (strip_thinking : bool)
  (provider : option Provider) (format : Format.t) : Outcome (list Stdout) :=
  if (command =? "ask")%string then
    ask py_repr settings post query system provider format
  else if (command =? "research")%string then
    research py_repr settings post query system strip_thinking provider format
  else
    reason py_repr settings post query system strip_thinking provider format.

(** Whether the content is stripped: on request, and never for ask. *)
Definition strips (command : string) (strip_thinking : bool) : bool :=
  if (command =? "ask")%string then false else strip_thinking.

(** [d.get(key, default)] on the fields of an object. *)
Definition field_or (kv : list (string * json)) (key : string) (default : json)
  : json :=
  match assoc key kv with
  | Some v => v
  | None => default
  end.

Definition is_object (x : json) : bool :=
  match x with
  | JObj _ => true
  | _ => false
  end.

(** Whether the character [x] occurs in [s]. *)
Fixpoint occurs (x : ascii) (s : string) : bool :=
  match s with
  | EmptyString => false
  | String c rest => Ascii.eqb x c || occurs x rest
  end.

(** What handing [envelope] to [emit] in structured mode gives: the record
    is written when the serialiser accepts it, else its TypeError escapes. *)
Definition written (envelope : json) : Outcome (list Stdout) :=
  if dumps_ok envelope then Ok [Dump envelope] else Raise TypeError.

(** [data.get(key, default)] for a body that is an object. *)
Definition get_or (data : json) (key : string) (default : json) : json :=
  match data with
  | JObj fields => field_or fields key default
  | _ => default
  end.

(** The envelope a chat command makes of the body [data] for the response
    text [response]. *)
Definition envelope_of (prov : Provider) (model : string) (data : json)
  (response : string) : json :=
  chat_envelope response (get_or data "model" (JStr model)) prov
                (get_or data "citations" (JArr [])) (get_or data "usage" JNull).

(** The success envelope of search in structured mode. *)
Definition search_envelope (results : json) (n : nat) (query : string) : json :=
  JObj [ ("status", JStr "success");
         ("data", results);
         ("metadata", JObj [ ("count", JNum (Z.of_nat n));
                             ("query", JStr query) ]) ].

(** The lines of the [i]-th entry of the listing for a result that is an
    object with the fields [fields], whatever their values. *)
Definition entry_of (py_repr : json -> string) (i : Z)
  (fields : list (string * json)) : list string :=
  app [ str_of_Z i ++ ". **"
          ++ fmt py_repr (field_or fields "title" (JStr "Untitled")) ++ "**";
        "   URL: " ++ fmt py_repr (field_or fields "url" (JStr "")) ]
      (app (if truthy (field_or fields "snippet" JNull)
            then ["   " ++ fmt py_repr (field_or fields "snippet" JNull)]
            else [])
           (app (if truthy (field_or fields "date" JNull)
                 then ["   Date: " ++ fmt py_repr (field_or fields "date" JNull)]
                 else [])
                [""])).

Fixpoint listing_of (py_repr : json -> string) (i : Z)
  (records : list (list (string * json))) : list string :=
  match records with
  | [] => []
  | fields :: rest =>
      app (entry_of py_repr i fields) (listing_of py_repr (i + 1) rest)
  end.

(** The result [r] is an object whose title, URL, snippet and date are each
    absent or a string, as [h] says; it may have further fields, in any
    order. *)
Definition describes (h : Hit) (r : json) : Prop :=
  exists fields,
    r = JObj fields
    /\ assoc "title" fields = option_map JStr (hit_title h)
    /\ assoc "url" fields = option_map JStr (hit_url h)
    /\ assoc "snippet" fields = option_map JStr (hit_snippet h)
    /\ assoc "date" fields = option_map JStr (hit_date h).

(** The outcomes of one command in text mode and in structured mode show
    the same response: what the envelope holds is what text mode prints,
    and what text mode prints is in the envelope unless the serialiser
    refused the envelope. *)
Definition modes_agree (text json : Outcome (list Stdout)) : Prop :=
  (forall t, response_of json = Some t -> response_of text = Some t)
  /\ (forall t, response_of text = Some t ->
        response_of json = Some t \/ json = Raise TypeError).

(** * Provider routing *)

Section Routing.

Variable settings : Settings.

Lemma chat_command_not_search (command : string) :
  In command chat_commands -> (command =? "search")%string = false.
Proof.
  unfold chat_commands. simpl.
  intros [<- | [<- | [<- | []]]]; reflexivity.
Qed.

(** C1. Asking for the search command on openrouter ends in the structured
    error of code 2, not retryable, whatever credentials are configured;
    with no provider or with perplexity requested the search command is
    routed to perplexity, and no request routes it to openrouter.  The
    search command itself sends its one request to the search endpoint of
    perplexity, with the key of perplexity, and its outcome depends on the
    transport through the answer to that request only. *)
Theorem search_routes_to_perplexity_only :
  _resolve_provider settings (Some openrouter) "search"
  = Exit 2 (mkError
      "The search command is only available via the Perplexity API (not OpenRouter)."
      2 false "Use --provider perplexity or set PERPLEXITY_API_KEY")
  /\ _resolve_provider settings None "search" = Ok perplexity
  /\ _resolve_provider settings (Some perplexity) "search" = Ok perplexity
  /\ (forall provider : option Provider,
        _resolve_provider settings provider "search" <> Ok openrouter)
  /\ (forall query max_results max_tokens_per_page country timeout_ms,
        let call := search_call settings query max_results max_tokens_per_page
                                country timeout_ms in
        url call = base_url settings perplexity ++ "/search"
        /\ req_headers call = _headers settings perplexity
        /\ forall py_repr (post post' : Transport) format,
             timeout_ms = perplexity_timeout_ms settings ->
             post call = post' call ->
             search py_repr settings post query max_results
                    max_tokens_per_page country format
             = search py_repr settings post' query max_results
                      max_tokens_per_page country format).
Proof.
  split; [reflexivity |]. split; [reflexivity |]. split; [reflexivity |].
  split; [intros [[|]|]; discriminate |].
  intros query max_results max_tokens_per_page country timeout_ms call.
  split; [reflexivity |]. split; [reflexivity |].
  intros py_repr post post' format -> H.
  unfold search, _search_request. fold call. now rewrite H.
Qed.

(** C3. For ask, research and reason without an explicit provider the
    router answers perplexity when its key is set, otherwise openrouter
    when that key is set, otherwise perplexity; an explicit provider is
    returned as given. *)
Theorem chat_routing (command : string) (Hc : In command chat_commands) :
  (perplexity_api_key settings <> "" ->
     _resolve_provider settings None command = Ok perplexity)
  /\ (perplexity_api_key settings = "" -> openrouter_api_key settings <> "" ->
     _resolve_provider settings None command = Ok openrouter)
  /\ (perplexity_api_key settings = "" -> openrouter_api_key settings = "" ->
     _resolve_provider settings None command = Ok perplexity)
  /\ (forall p : Provider, _resolve_provider settings (Some p) command = Ok p).
Proof.
  pose proof (chat_command_not_search command Hc) as Hs.
  unfold _resolve_provider, str_truthy. rewrite Hs.
  repeat split.
  - intros Hp. apply String.eqb_neq in Hp. now rewrite Hp.
  - intros -> Ho. apply String.eqb_neq in Ho. now rewrite Ho.
  - now intros -> ->.
Qed.

End Routing.

(** * Credential resolution *)

Section Credentials.

Variable kr : Keyring.
Variable self : Settings.

Lemma getattr_secret (s : Settings) (p : Provider) :
  getattr s (secret_field p) = api_key s p.
Proof. destruct p; reflexivity. Qed.

Lemma setattr_secret (s : Settings) (q p : Provider) (val : string) :
  api_key (setattr s (secret_field q) val) p =
    if Provider_eqb p q then val else api_key s p.
Proof. destruct p, q; reflexivity. Qed.

Lemma fallback_field_api_key (s : Settings) (p q : Provider) :
  api_key (fallback_field kr s (secret_field q)) p =
    if Provider_eqb p q then
      if str_truthy (api_key s p) then api_key s p
      else match kr "perplexity" (secret_field p) with
           | Password val => val
           | _ => ""
           end
    else api_key s p.
Proof.
  unfold fallback_field. rewrite getattr_secret.
  destruct (Provider_eqb p q) eqn:Epq.
  - assert (p = q) as -> by (destruct p, q; congruence || discriminate).
    unfold str_truthy.
    destruct (api_key s q =? "")%string eqn:E; simpl; [| reflexivity].
    apply String.eqb_eq in E.
    destruct (kr "perplexity" (secret_field q)) as [val | |]; try exact E.
    destruct (val =? "")%string eqn:Ev; simpl.
    + apply String.eqb_eq in Ev. congruence.
    + rewrite setattr_secret. now destruct q.
  - destruct (str_truthy (api_key s q)); [reflexivity |].
    destruct (kr "perplexity" (secret_field q)) as [val | |]; try reflexivity.
    destruct (str_truthy val); [| reflexivity].
    rewrite setattr_secret. now rewrite Epq.
Qed.

Lemma keyring_fallback_api_key (p : Provider) :
  api_key (_keyring_fallback kr self) p =
    if str_truthy (api_key self p) then api_key self p
    else match kr "perplexity" (secret_field p) with
         | Password val => val
         | _ => ""
         end.
Proof.
  unfold _keyring_fallback. simpl.
  change "perplexity_api_key" with (secret_field perplexity).
  change "openrouter_api_key" with (secret_field openrouter).
  rewrite !fallback_field_api_key.
  destruct p; reflexivity.
Qed.

(** C9. For each provider the configured value wins when it is not empty;
    otherwise the keyring is asked, under the service "perplexity" and the
    name of the field; a password found there becomes the credential, and
    a missing password or a failing lookup leaves the credential absent
    (the empty string): resolution itself never fails. *)
Theorem credential_resolution (p : Provider) :
  (api_key self p <> "" ->
     api_key (_keyring_fallback kr self) p = api_key self p)
  /\ (forall val, api_key self p = "" ->
        kr "perplexity" (secret_field p) = Password val ->
        api_key (_keyring_fallback kr self) p = val)
  /\ (api_key self p = "" ->
        kr "perplexity" (secret_field p) = NoPassword ->
        api_key (_keyring_fallback kr self) p = "")
  /\ (api_key self p = "" ->
        kr "perplexity" (secret_field p) = KeyringFailure ->
        api_key (_keyring_fallback kr self) p = "").
Proof.
  rewrite keyring_fallback_api_key. unfold str_truthy.
  repeat split.
  - intros H. apply String.eqb_neq in H. now rewrite H.
  - intros val -> ->. reflexivity.
  - intros -> ->. reflexivity.
  - intros -> ->. reflexivity.
Qed.

End Credentials.

(** * Response normalisation *)

Section Normaliser.

Variable settings : Settings.

Lemma headers_get_absent (h : list (string * string)) (name default : string) :
  header_absent h name -> headers_get h name default = default.
Proof.
  intros Ha. unfold headers_get.
  replace (filter (fun kv => (lower (fst kv) =? lower name)%string) h)
    with (@nil (string * string)); [reflexivity |].
  symmetry. induction h as [| [k v] h IH]; [reflexivity |].
  simpl. destruct (lower k =? lower name)%string eqn:E.
  - apply String.eqb_eq in E. exfalso. apply (Ha k v); [now left | exact E].
  - apply IH. intros k' v' Hin. apply (Ha k' v'). now right.
Qed.

Lemma headers_get_once (h1 h2 : list (string * string))
  (k v name default : string) :
  lower k = lower name -> header_absent h1 name -> header_absent h2 name ->
  headers_get (h1 ++ (k, v) :: h2) name default = v.
Proof.
  intros Hk H1 H2. unfold headers_get.
  assert (Hnil : forall h, header_absent h name ->
            filter (fun kv => (lower (fst kv) =? lower name)%string) h = []).
  { induction h as [| [k' v'] h IH]; intros Ha; [reflexivity |].
    simpl. destruct (lower k' =? lower name)%string eqn:E.
    - apply String.eqb_eq in E. exfalso. apply (Ha k' v'); [now left | exact E].
    - apply IH. intros k'' v'' Hin. apply (Ha k'' v''). now right. }
  rewrite filter_app. simpl. rewrite (Hnil h1 H1), (Hnil h2 H2).
  simpl. rewrite Hk, String.eqb_refl. reflexivity.
Qed.

Lemma status_ladder {A : Type} (resp : HttpResponse) (rem401 : string)
  (k : Outcome A) :
  ((if status_code resp =? 429 then
      emit_error ("Rate limited. Retry after "
                  ++ headers_get (headers resp) "retry-after" "unknown" ++ "s")
                 8 true ""
    else Ok tt) ;;;
   (if status_code resp =? 401 then
      emit_error "Authentication failed — invalid API key" 4 false rem401
    else Ok tt) ;;;
   (if status_code resp >=? 400 then
      emit_error ("API error " ++ str_of_Z (status_code resp) ++ ": "
                  ++ resp_text resp)
                 9 (status_code resp >=? 500) ""
    else Ok tt) ;;;
   k)
  = if status_code resp =? 429 then
      Exit 8 (mkError ("Rate limited. Retry after "
                       ++ headers_get (headers resp) "retry-after" "unknown"
                       ++ "s") 8 true "")
    else if status_code resp =? 401 then
      Exit 4 (mkError "Authentication failed — invalid API key" 4 false rem401)
    else if 400 <=? status_code resp then
      Exit 9 (mkError ("API error " ++ str_of_Z (status_code resp) ++ ": "
                       ++ resp_text resp) 9 (500 <=? status_code resp) "")
    else k.
Proof.
  rewrite !Z.geb_leb.
  destruct (status_code resp =? 429); [reflexivity |].
  destruct (status_code resp =? 401); [reflexivity |].
  destruct (400 <=? status_code resp); reflexivity.
Qed.

Lemma classifies_ladder (request : HttpRequest) (rem7 rem401 : string)
  (run : Transport -> Outcome json) :
  (forall post, run post =
     match post request with
     | TimeoutException => emit_error "Request timed out" 7 true rem7
     | ConnectError e => emit_error ("Connection error: " ++ e) 9 true ""
     | OtherFailure => Raise TransportError
     | Responded resp =>
         if status_code resp =? 429 then
           Exit 8 (mkError ("Rate limited. Retry after "
                            ++ headers_get (headers resp) "retry-after" "unknown"
                            ++ "s") 8 true "")
         else if status_code resp =? 401 then
           Exit 4 (mkError "Authentication failed — invalid API key" 4 false
                           rem401)
         else if 400 <=? status_code resp then
           Exit 9 (mkError ("API error " ++ str_of_Z (status_code resp) ++ ": "
                            ++ resp_text resp) 9 (500 <=? status_code resp) "")
         else resp_json resp
     end) ->
  classifies request run.
Proof.
  intros Hrun post. rewrite (Hrun post).
  repeat split.
  - intros ->. now eexists _, _.
  - intros e ->. now eexists.
  - intros resp -> Hs. rewrite Hs. now eexists.
  - intros resp -> Hs. rewrite Hs. simpl. now eexists _, _.
  - intros resp -> Hge H429 H401.
    apply Z.eqb_neq in H429, H401. rewrite H429, H401.
    apply Z.leb_le in Hge. rewrite Hge.
    eexists _, _, _. split; [reflexivity |]. apply Z.leb_le.
Qed.

(** C2. Both [_chat_request] and [_search_request] classify the exchange
    as the table says: a timeout gives code 7, retryable; a connection
    failure code 9, retryable; status 429 code 8, retryable, with the value
    of the retry-after header in the message, or "unknown" without such a
    header; status 401 code 4, not retryable; any other status from 400 up
    code 9, retryable exactly from 500 up. *)
Theorem normaliser_classification :
  (forall provider model messages timeout_ms,
     classifies (chat_call settings provider model messages timeout_ms)
       (fun post =>
          _chat_request settings post provider model messages timeout_ms))
  /\ (forall query max_results max_tokens_per_page country timeout_ms,
     classifies
       (search_call settings query max_results max_tokens_per_page country
                    timeout_ms)
       (fun post =>
          _search_request settings post query max_results max_tokens_per_page
                          country timeout_ms))
  /\ (forall h, header_absent h "retry-after" ->
        headers_get h "retry-after" "unknown" = "unknown")
  /\ (forall h1 h2 k v,
        lower k = "retry-after" ->
        header_absent h1 "retry-after" -> header_absent h2 "retry-after" ->
        headers_get (h1 ++ (k, v) :: h2) "retry-after" "unknown" = v).
Proof.
  split; [| split; [| split]].
  - intros provider model messages timeout_ms.
    apply classifies_ladder
      with (rem7 := "Increase PERPLEXITY_TIMEOUT_MS or try again")
           (rem401 := "Check your API key").
    intros post. unfold _chat_request.
    destruct (post _) as [resp | | e |]; try reflexivity.
    apply status_ladder.
  - intros query max_results max_tokens_per_page country timeout_ms.
    apply classifies_ladder with (rem7 := "") (rem401 := "").
    intros post. unfold _search_request.
    destruct (post _) as [resp | | e |]; try reflexivity.
    apply status_ladder.
  - intros h. apply headers_get_absent.
  - intros h1 h2 k v Hk. apply headers_get_once. exact Hk.
Qed.

End Normaliser.

(** * The chat commands *)

Section ChatCommands.

Variable py_repr : json -> string.
Variable settings : Settings.
Variable post : Transport.

Lemma ask_tail query system provider format prov model data :
  chat_answered settings post provider "ask" system query prov model data ->
  ask py_repr settings post query system provider format
  = chat_tail py_repr false format prov model data.
Proof.
  intros (Hr & Ha & Hm & Hd). unfold ask.
  rewrite Hr. simpl. rewrite Ha. simpl. rewrite Hm. simpl. rewrite Hd.
  reflexivity.
Qed.

Lemma research_tail query system strip provider format prov model data :
  chat_answered settings post provider "research" system query prov model data ->
  research py_repr settings post query system strip provider format
  = chat_tail py_repr strip format prov model data.
Proof.
  intros (Hr & Ha & Hm & Hd). unfold research.
  rewrite Hr. simpl. rewrite Ha. simpl. rewrite Hm. simpl. rewrite Hd.
  reflexivity.
Qed.

Lemma reason_tail query system strip provider format prov model data :
  chat_answered settings post provider "reason" system query prov model data ->
  reason py_repr settings post query system strip provider format
  = chat_tail py_repr strip format prov model data.
Proof.
  intros (Hr & Ha & Hm & Hd). unfold reason.
  rewrite Hr. simpl. rewrite Ha. simpl. rewrite Hm. simpl. rewrite Hd.
  reflexivity.
Qed.

Lemma getitem_raises (obj : json) (sub : Subscript) (e : PyExn) :
  getitem obj sub = Raise e -> e = KeyError \/ e = IndexError \/ e = TypeError.
Proof.
  destruct obj as [| b | z | s | l | kv], sub as [k | i]; simpl;
    try (intros [= <-]; auto).
  - destruct (nth_char i s); intros [= <-]; auto.
  - destruct (nth_error l i); intros [= <-]; auto.
  - destruct (assoc k kv); intros [= <-]; auto.
Qed.

Lemma getitem_no_exit (obj : json) (sub : Subscript) n err :
  getitem obj sub <> Exit n err.
Proof.
  destruct obj as [| b | z | s | l | kv], sub as [k | i]; simpl;
    try discriminate.
  - destruct (nth_char i s); discriminate.
  - destruct (nth_error l i); discriminate.
  - destruct (assoc k kv); discriminate.
Qed.

Lemma subscripts_raises (path : list Subscript) :
  forall (obj : json) (e : PyExn),
    subscripts obj path = Raise e ->
    e = KeyError \/ e = IndexError \/ e = TypeError.
Proof.
  induction path as [| sub path IH]; intros obj e; simpl.
  - discriminate.
  - destruct (getitem obj sub) as [v | n err | e'] eqn:G; simpl.
    + apply IH.
    + discriminate.
    + intros [= <-]. eapply getitem_raises, G.
Qed.

Lemma subscripts_no_exit (path : list Subscript) :
  forall (obj : json) n err, subscripts obj path <> Exit n err.
Proof.
  induction path as [| sub path IH]; intros obj n err; simpl.
  - discriminate.
  - destruct (getitem obj sub) as [v | n' err' | e'] eqn:G; simpl.
    + apply IH.
    + exfalso. eapply getitem_no_exit, G.
    + discriminate.
Qed.

Lemma chat_tail_absent strip format prov model data e :
  subscripts data content_path = Raise e ->
  chat_tail py_repr strip format prov model data = Raise e.
Proof.
  intros H. unfold chat_tail. now rewrite H.
Qed.

(** C4, as the code has it. When the success body of a chat request has no
    [choices[0].message.content], each of ask, research and reason ends in
    the exception of the failed lookup (KeyError, IndexError or TypeError),
    which nothing catches: no structured error is written and no exit code
    of the taxonomy is produced. *)
Theorem missing_content_raises
  query system strip provider format prov model data e
  (Habsent : subscripts data content_path = Raise e) :
  (e = KeyError \/ e = IndexError \/ e = TypeError)
  /\ (chat_answered settings post provider "ask" system query prov model data ->
      ask py_repr settings post query system provider format = Raise e)
  /\ (chat_answered settings post provider "research" system query prov model
                    data ->
      research py_repr settings post query system strip provider format
      = Raise e)
  /\ (chat_answered settings post provider "reason" system query prov model
                    data ->
      reason py_repr settings post query system strip provider format
      = Raise e).
Proof.
  split; [eapply subscripts_raises, Habsent |].
  repeat split; intros H.
  - rewrite (ask_tail _ _ _ _ _ _ _ H). now apply chat_tail_absent.
  - rewrite (research_tail _ _ _ _ _ _ _ _ H). now apply chat_tail_absent.
  - rewrite (reason_tail _ _ _ _ _ _ _ _ H). now apply chat_tail_absent.
Qed.

End ChatCommands.

(** C4, as stated, fails: with a key configured and the success body [{}],
    ask stops on a KeyError and not on a structured error of code 9. *)
Lemma missing_content_not_code_9 :
  ask sample_repr sample_settings (reply_with 200 [] (Some (JObj [])))
      "q" None None Format.json = Raise KeyError
  /\ ~ (exists err,
         ask sample_repr sample_settings (reply_with 200 [] (Some (JObj [])))
             "q" None None Format.json = Exit 9 err).
Proof.
  split; [reflexivity |].
  intros [err H]. vm_compute in H. discriminate.
Qed.

Lemma missing_content_raises_witness :
  ask sample_repr sample_settings (reply_with 200 [] (Some (JObj [])))
      "q" None None Format.text = Raise KeyError.
Proof.
  refine (proj1 (proj2 (missing_content_raises sample_repr sample_settings
            (reply_with 200 [] (Some (JObj [])))
            "q" None false None Format.text perplexity "sonar-pro" (JObj [])
            KeyError _)) _).
  - reflexivity.
  - repeat split.
Defined.

(** * Thinking blocks *)

Section StripThinking.

Lemma lstrip_starts_clean (s : string) : starts_clean (lstrip s).
Proof.
  induction s as [| c s IH]; simpl; [exact I |].
  destruct (is_space c) eqn:E; [exact IH | exact E].
Qed.

Lemma lstrip_clean (s : string) : starts_clean s -> lstrip s = s.
Proof.
  destruct s as [| c s]; simpl; [reflexivity |].
  now intros ->.
Qed.

Lemma rstrip_starts_clean (s : string) : starts_clean s -> starts_clean (rstrip s).
Proof.
  destruct s as [| c s]; simpl; [trivial |].
  intros Hc. destruct (rstrip s); [rewrite Hc |]; exact Hc.
Qed.

Lemma rstrip_idempotent (s : string) : rstrip (rstrip s) = rstrip s.
Proof.
  induction s as [| c s IH]; simpl; [reflexivity |].
  destruct (rstrip s) as [| c' r] eqn:R.
  - destruct (is_space c) eqn:E; simpl; [reflexivity | now rewrite E].
  - change (rstrip (String c (String c' r)))
      with (match rstrip (String c' r) with
            | EmptyString =>
                if is_space c then EmptyString else String c EmptyString
            | r0 => String c r0
            end).
    now rewrite IH.
Qed.

Lemma strip_idempotent (s : string) : strip (strip s) = strip s.
Proof.
  unfold strip.
  rewrite (lstrip_clean (rstrip (lstrip s))).
  - apply rstrip_idempotent.
  - apply rstrip_starts_clean, lstrip_starts_clean.
Qed.

Lemma find_none_start (needle s : string) :
  find needle s = None -> startswith s needle = false.
Proof.
  destruct s as [| c s].
  - unfold find. destruct (startswith "" needle); congruence.
  - change (find needle (String c s))
      with (if startswith (String c s) needle then Some O
            else option_map S (find needle s)).
    destruct (startswith (String c s) needle); congruence.
Qed.

Lemma find_none_tail (needle : string) (c : ascii) (s : string) :
  find needle (String c s) = None -> find needle s = None.
Proof.
  change (find needle (String c s))
    with (if startswith (String c s) needle then Some O
          else option_map S (find needle s)).
  destruct (startswith (String c s) needle); [discriminate |].
  destruct (find needle s); [discriminate | reflexivity].
Qed.

Lemma startswith_trans (a : string) :
  forall b c, startswith b a = true -> startswith c b = true ->
              startswith c a = true.
Proof.
  induction a as [| x a IH]; intros b c Hab Hbc; [reflexivity |].
  destruct b as [| y b]; [discriminate |].
  destruct c as [| z c]; [discriminate |].
  simpl in *.
  apply andb_true_iff in Hab as [Hxy Hab].
  apply andb_true_iff in Hbc as [Hyz Hbc].
  apply Ascii.eqb_eq in Hxy, Hyz. subst.
  rewrite Ascii.eqb_refl. simpl.
  eapply IH; eassumption.
Qed.

Lemma find_none_in_prefix (needle : string) (p : string) :
  forall s, startswith s p = true -> find needle s = None ->
            find needle p = None.
Proof.
  induction p as [| x p IH]; intros s Hp Hs.
  - unfold find. destruct (startswith "" needle) eqn:E; [| reflexivity].
    pose proof (startswith_trans _ _ _ E Hp) as Hn.
    apply find_none_start in Hs. congruence.
  - destruct s as [| y s]; [discriminate |].
    pose proof (find_none_start _ _ Hs) as Hns.
    apply find_none_tail in Hs.
    simpl in Hp. apply andb_true_iff in Hp as [Hxy Hp].
    change (find needle (String x p))
      with (if startswith (String x p) needle then Some O
            else option_map S (find needle p)).
    destruct (startswith (String x p) needle) eqn:E.
    + assert (startswith (String y s) needle = true) as Hn.
      { eapply startswith_trans; [exact E |].
        simpl. now rewrite Hxy. }
      congruence.
    + now rewrite (IH s Hp Hs).
Qed.

Lemma rstrip_prefix (s : string) : startswith s (rstrip s) = true.
Proof.
  induction s as [| c s IH]; simpl; [reflexivity |].
  destruct (rstrip s) as [| c' r].
  - destruct (is_space c); simpl; [reflexivity |].
    now rewrite Ascii.eqb_refl.
  - simpl. simpl in IH. now rewrite Ascii.eqb_refl.
Qed.

Lemma find_none_lstrip (needle s : string) :
  find needle s = None -> find needle (lstrip s) = None.
Proof.
  induction s as [| c s IH]; intros H; [exact H |].
  simpl. destruct (is_space c); [| exact H].
  apply IH. eapply find_none_tail, H.
Qed.

Lemma find_none_strip (needle s : string) :
  find needle s = None -> find needle (strip s) = None.
Proof.
  intros H. unfold strip.
  eapply find_none_in_prefix; [apply rstrip_prefix |].
  now apply find_none_lstrip.
Qed.

Lemma sub_think_no_tag (s : string) :
  find "<think>" s = None -> sub_think O s = s.
Proof.
  induction s as [| c s IH]; intros H; [reflexivity |].
  pose proof (find_none_start _ _ H) as Hp.
  apply find_none_tail in H.
  change (sub_think O (String c s))
    with (match match_think (String c s) with
          | Some len => sub_think (Nat.pred len) s
          | None => String c (sub_think O s)
          end).
  unfold match_think. rewrite Hp. now rewrite IH.
Qed.

(** C5, as the code has it. On a text without the tag [<think>] the
    function only trims the surrounding whitespace, so it returns the text
    itself when there is none to trim, and a second application changes
    nothing; in general a second application changes nothing as soon as the
    result of the first holds no [<think>] tag. *)
Theorem strip_thinking_without_tags (text : string) :
  (find "<think>" text = None -> _strip_thinking text = strip text)
  /\ (find "<think>" text = None -> strip text = text ->
      _strip_thinking text = text)
  /\ (find "<think>" text = None ->
      _strip_thinking (_strip_thinking text) = _strip_thinking text)
  /\ (find "<think>" (_strip_thinking text) = None ->
      _strip_thinking (_strip_thinking text) = _strip_thinking text).
Proof.
  assert (H1 : forall t, find "<think>" t = None -> _strip_thinking t = strip t).
  { intros t H. unfold _strip_thinking. now rewrite sub_think_no_tag. }
  assert (H4 : forall t, find "<think>" (_strip_thinking t) = None ->
             _strip_thinking (_strip_thinking t) = _strip_thinking t).
  { intros t H. rewrite (H1 _ H). unfold _strip_thinking.
    apply strip_idempotent. }
  repeat split.
  - apply H1.
  - intros H Hs. now rewrite (H1 _ H).
  - intros H. apply H4. rewrite (H1 _ H). now apply find_none_strip.
  - apply H4.
Qed.

End StripThinking.

(** C5, as stated, fails twice: removing a block can bring the two halves
    of another block together, so that a second pass removes more; and a
    text without tags loses its surrounding whitespace. *)
Lemma strip_thinking_not_idempotent :
  _strip_thinking "<thi<think>x</think>nk>y</think>" = "<think>y</think>"
  /\ _strip_thinking (_strip_thinking "<thi<think>x</think>nk>y</think>")
     <> _strip_thinking "<thi<think>x</think>nk>y</think>"
  /\ find "<think>" " a" = None
  /\ _strip_thinking " a" <> " a".
Proof.
  repeat split; try reflexivity; vm_compute; discriminate.
Qed.

Lemma strip_thinking_without_tags_witness :
  _strip_thinking " no tags " = "no tags"
  /\ _strip_thinking (_strip_thinking "<think>a</think> b") = "b".
Proof.
  split.
  - exact (proj1 (strip_thinking_without_tags " no tags ") eq_refl).
  - exact (proj2 (proj2 (proj2 (strip_thinking_without_tags "<think>a</think> b")))
             eq_refl).
Defined.

(** * Citations *)

Section Citations.

Variable py_repr : json -> string.

Lemma citation_lines_length (k : Z) (items : list json) :
  List.length (map (citation_line py_repr) (enumerate k items))
  = List.length items.
Proof.
  revert k. induction items as [| x items IH]; intros k; simpl;
    [reflexivity | now rewrite IH].
Qed.

Lemma citation_lines_nth (urls : list string) :
  forall (k : Z) (i : nat) (u : string),
    nth_error urls i = Some u ->
    nth_error (map (citation_line py_repr) (enumerate k (map JStr urls))) i
    = Some ("[" ++ str_of_Z (k + Z.of_nat i + 1) ++ "] " ++ u).
Proof.
  induction urls as [| u0 urls IH]; intros k i u H.
  - destruct i; discriminate.
  - destruct i as [| i]; simpl in *.
    + injection H as <-. unfold citation_line. simpl.
      now rewrite Z.add_0_r.
    + rewrite (IH (k + 1) i u H). do 4 f_equal. lia.
Qed.

Lemma format_citations_urls (urls : list string) :
  urls <> [] ->
  exists block,
    _format_citations py_repr (JArr (map JStr urls)) = Ok block
    /\ is_citation_block urls block.
Proof.
  intros Hne. unfold _format_citations.
  destruct urls as [| u0 urls]; [congruence |].
  set (all := u0 :: urls).
  change (truthy (JArr (map JStr all))) with true. cbn [negb iterate bind].
  eexists. split; [reflexivity |].
  exists (map (citation_line py_repr) (enumerate 0 (map JStr all))).
  split; [reflexivity |]. split.
  - now rewrite citation_lines_length, length_map.
  - intros i u H. rewrite (citation_lines_nth all 0 i u H).
    unfold str_of_nat. do 4 f_equal. lia.
Qed.

End Citations.

(** * What the chat commands print *)

Section Responses.

Variable py_repr : json -> string.
Variable settings : Settings.
Variable post : Transport.

Lemma chat_tail_text strip prov model data c citations block :
  subscripts data content_path = Ok (JStr c) ->
  py_get data "citations" (JArr []) = Ok citations ->
  _format_citations py_repr citations = Ok block ->
  chat_tail py_repr strip Format.text prov model data
  = Ok [Echo (processed strip c ++ block)].
Proof.
  intros Hc Hg Hf. unfold chat_tail. rewrite Hc. simpl.
  destruct strip; simpl; rewrite Hg; simpl; rewrite Hf; reflexivity.
Qed.

Lemma py_get_get_or data key default v :
  py_get data key default = Ok v -> get_or data key default = v.
Proof.
  destruct data; try discriminate. simpl. unfold field_or. congruence.
Qed.

Lemma py_get_object data key default v key' default' :
  py_get data key default = Ok v ->
  py_get data key' default' = Ok (get_or data key' default').
Proof.
  destruct data; try discriminate. reflexivity.
Qed.

Lemma chat_tail_json strip prov model data c citations block :
  subscripts data content_path = Ok (JStr c) ->
  py_get data "citations" (JArr []) = Ok citations ->
  _format_citations py_repr citations = Ok block ->
  chat_tail py_repr strip Format.json prov model data
  = written (envelope_of prov model data (processed strip c ++ block)).
Proof.
  intros Hc Hg Hf.
  pose proof (py_get_object _ _ _ _ "model" (JStr model) Hg) as Hm.
  pose proof (py_get_object _ _ _ _ "usage" JNull Hg) as Hu.
  unfold envelope_of. rewrite (py_get_get_or _ _ _ _ Hg).
  unfold chat_tail. rewrite Hc. cbn [bind].
  destruct strip; cbn [bind strip_content]; rewrite Hg; cbn [bind];
    rewrite Hf; cbn [bind add_str]; rewrite Hm; cbn [bind]; rewrite Hu;
    reflexivity.
Qed.

(** The text of the response has no part in what the serialiser accepts. *)
Lemma dumps_ok_envelope r r' model' prov citations usage :
  dumps_ok (chat_envelope r model' prov citations usage)
  = dumps_ok (chat_envelope r' model' prov citations usage).
Proof. reflexivity. Qed.

Lemma chat_tail_response strip format prov model data c citations block :
  subscripts data content_path = Ok (JStr c) ->
  py_get data "citations" (JArr []) = Ok citations ->
  _format_citations py_repr citations = Ok block ->
  format = Format.text \/ dumps_ok (envelope_of prov model data "") = true ->
  response_of (chat_tail py_repr strip format prov model data)
  = Some (processed strip c ++ block).
Proof.
  intros Hc Hg Hf Hd. destruct format.
  - destruct Hd as [Hd | Hd]; [discriminate |].
    rewrite (chat_tail_json strip prov model data c citations block Hc Hg Hf).
    unfold written, envelope_of in *.
    rewrite (dumps_ok_envelope _ "" _ _ _ _), Hd. reflexivity.
  - now rewrite (chat_tail_text strip prov model data c citations block).
Qed.

Lemma search_tail query max_results max_tokens_per_page country format data :
  search_answered settings post query max_results max_tokens_per_page country
                  data ->
  search py_repr settings post query max_results max_tokens_per_page country
         format
  = (results <- py_get data "results" (JArr []) ;;
     match format with
     | Format.text =>
         if negb (truthy results) then Ok [Echo "No results found."]
         else
           n <- py_len results ;;
           let lines := ["Found " ++ str_of_nat n ++ " search results:" ++ nl] in
           items <- iterate results ;;
           lines <- results_loop py_repr lines (enumerate 1 items) ;;
           Ok [Echo (join nl lines)]
     | Format.json =>
         n <- py_len results ;;
         written (search_envelope results n query)
     end).
Proof.
  intros (Ha & Hd). unfold search. rewrite Ha. simpl bind. rewrite Hd.
  destruct format; reflexivity.
Qed.

Lemma result_lines_object (i : Z) (fields : list (string * json)) :
  result_lines py_repr (i, JObj fields) = Ok (entry_of py_repr i fields).
Proof.
  unfold result_lines, entry_of, field_or. cbn [fst snd py_get getitem bind].
  destruct (assoc "snippet" fields) as [s |];
    destruct (assoc "date" fields) as [d |];
    cbn [truthy bind];
    repeat match goal with
           | |- context [truthy ?x] => destruct (truthy x); cbn [bind]
           end;
    reflexivity.
Qed.

Lemma results_loop_objects (records : list (list (string * json))) :
  forall (lines : list string) (k : Z),
    results_loop py_repr lines (enumerate k (map JObj records))
    = Ok (lines ++ listing_of py_repr k records)%list.
Proof.
  induction records as [| fields records IH]; intros lines k;
    cbn [map enumerate results_loop listing_of].
  - now rewrite app_nil_r.
  - rewrite result_lines_object. cbn [bind].
    rewrite IH. now rewrite app_assoc.
Qed.

Lemma search_text_objects
  query max_results max_tokens_per_page country data records :
  search_answered settings post query max_results max_tokens_per_page country
                  data ->
  records <> [] ->
  py_get data "results" (JArr []) = Ok (JArr (map JObj records)) ->
  search py_repr settings post query max_results max_tokens_per_page country
         Format.text
  = Ok [Echo (join nl
                (("Found " ++ str_of_nat (List.length records)
                  ++ " search results:" ++ nl)
                 :: listing_of py_repr 1 records))].
Proof.
  intros Hs Hne Hr. rewrite (search_tail _ _ _ _ _ _ Hs). rewrite Hr.
  simpl bind.
  destruct records as [| fields records]; [congruence |].
  set (all := fields :: records).
  change (truthy (JArr (map JObj all))) with true.
  cbn [negb py_len iterate bind]. rewrite length_map.
  rewrite results_loop_objects. reflexivity.
Qed.

(** C6, as the code has it. The strip is applied exactly when the caller
    asks for it, and only research and reason let the caller ask: with the
    flag off they return the content as received, followed by the citation
    block, with the flag on the stripped content followed by the block.
    The ask command has no such flag and always returns the content as
    received.  This is the text printed in text mode and, in structured
    mode, the field "response" of the envelope whenever the serialiser
    accepts the envelope.  Search never strips: in structured mode it hands
    the results over as they came, when the serialiser accepts them, and
    in text mode it prints the fields of each result as they came. *)
Theorem strip_only_on_request
  query system provider format prov model data c citations block
  (Hcontent : subscripts data content_path = Ok (JStr c))
  (Hcitations : py_get data "citations" (JArr []) = Ok citations)
  (Hblock : _format_citations py_repr citations = Ok block)
  (Hdump : format = Format.text
           \/ dumps_ok (envelope_of prov model data "") = true) :
  (chat_answered settings post provider "research" system query prov model
                 data ->
     response_of (research py_repr settings post query system false provider
                           format) = Some (c ++ block)
     /\ response_of (research py_repr settings post query system true provider
                              format) = Some (_strip_thinking c ++ block))
  /\ (chat_answered settings post provider "reason" system query prov model
                    data ->
     response_of (reason py_repr settings post query system false provider
                         format) = Some (c ++ block)
     /\ response_of (reason py_repr settings post query system true provider
                            format) = Some (_strip_thinking c ++ block))
  /\ (chat_answered settings post provider "ask" system query prov model data ->
     response_of (ask py_repr settings post query system provider format)
     = Some (c ++ block))
  /\ (forall max_results max_tokens_per_page country found results n,
        search_answered settings post query max_results max_tokens_per_page
                        country found ->
        py_get found "results" (JArr []) = Ok results ->
        py_len results = Ok n ->
        dumps_ok (search_envelope results n query) = true ->
        search py_repr settings post query max_results max_tokens_per_page
               country Format.json
        = Ok [Dump (JObj [ ("status", JStr "success");
                           ("data", results);
                           ("metadata", JObj [ ("count", JNum (Z.of_nat n));
                                               ("query", JStr query) ]) ])])
  /\ (forall max_results max_tokens_per_page country found records,
        search_answered settings post query max_results max_tokens_per_page
                        country found ->
        records <> [] ->
        py_get found "results" (JArr []) = Ok (JArr (map JObj records)) ->
        search py_repr settings post query max_results max_tokens_per_page
               country Format.text
        = Ok [Echo (join nl
                      (("Found " ++ str_of_nat (List.length records)
                        ++ " search results:" ++ nl)
                       :: listing_of py_repr 1 records))]).
Proof.
  split; [| split; [| split; [| split]]].
  - intros H. rewrite !(research_tail _ _ _ _ _ _ _ _ _ _ _ H).
    rewrite !(chat_tail_response _ format prov model data c citations block);
      auto.
  - intros H. rewrite !(reason_tail _ _ _ _ _ _ _ _ _ _ _ H).
    rewrite !(chat_tail_response _ format prov model data c citations block);
      auto.
  - intros H. rewrite (ask_tail _ _ _ _ _ _ _ _ _ _ H).
    now rewrite (chat_tail_response false format prov model data c citations
                   block).
  - intros max_results max_tokens_per_page country found results n Hs Hr Hn Hd.
    rewrite (search_tail _ _ _ _ _ _ Hs). rewrite Hr. simpl bind.
    rewrite Hn. cbn [bind]. unfold written. now rewrite Hd.
  - intros max_results max_tokens_per_page country found records Hs Hne Hr.
    now apply search_text_objects with (data := found).
Qed.

End Responses.

(** C6, as stated, fails for ask: the command has no strip option, so no
    way of calling it returns the stripped content. *)
Lemma ask_cannot_strip :
  _strip_thinking "<think>t</think>X" = "X"
  /\ ~ (exists query system provider format,
         response_of
           (ask sample_repr sample_settings
                (reply_with 200 [] (Some (chat_body "<think>t</think>X" [])))
                query system provider format)
         = Some "X").
Proof.
  split; [reflexivity |].
  intros (query & system & provider & format & H).
  destruct provider as [[|] |], format; vm_compute in H; discriminate.
Qed.

Lemma strip_only_on_request_witness :
  response_of
    (research sample_repr sample_settings
       (reply_with 200 [] (Some (chat_body "<think>t</think>X" ["u"])))
       "q" None false None Format.json)
  = Some ("<think>t</think>X" ++ nl ++ nl ++ "Citations:" ++ nl ++ "[1] u")
  /\ response_of
    (research sample_repr sample_settings
       (reply_with 200 [] (Some (chat_body "<think>t</think>X" ["u"])))
       "q" None true None Format.json)
  = Some ("X" ++ nl ++ nl ++ "Citations:" ++ nl ++ "[1] u").
Proof.
  refine (proj1 (strip_only_on_request sample_repr sample_settings
            (reply_with 200 [] (Some (chat_body "<think>t</think>X" ["u"])))
            "q" None None Format.json perplexity "sonar-deep-research"
            (chat_body "<think>t</think>X" ["u"]) "<think>t</think>X"
            (JArr [JStr "u"]) (nl ++ nl ++ "Citations:" ++ nl ++ "[1] u")
            _ _ _ _) _).
  - reflexivity.
  - reflexivity.
  - reflexivity.
  - right. reflexivity.
  - repeat split.
Defined.

Section CitationBlock.

Variable py_repr : json -> string.
Variable settings : Settings.
Variable post : Transport.

(** C7. Without citations the block is empty; with URLs it is a blank
    line, the header "Citations:" and the numbered lines "[i] url", counted
    from 1 and separated by newlines; the three chat commands print the
    content, stripped first when that was asked for, followed once by the
    block. *)
Theorem citations_block_appended :
  _format_citations py_repr (JArr []) = Ok ""
  /\ _format_citations py_repr (JArr [JStr "https://a"; JStr "https://b"])
     = Ok (nl ++ nl ++ "Citations:" ++ nl ++ "[1] https://a" ++ nl
           ++ "[2] https://b")
  /\ (forall urls, urls <> [] ->
        exists block,
          _format_citations py_repr (JArr (map JStr urls)) = Ok block
          /\ is_citation_block urls block)
  /\ (forall query system strip provider prov model data c citations block,
        subscripts data content_path = Ok (JStr c) ->
        py_get data "citations" (JArr []) = Ok citations ->
        _format_citations py_repr citations = Ok block ->
        (chat_answered settings post provider "ask" system query prov model
                       data ->
           ask py_repr settings post query system provider Format.text
           = Ok [Echo (c ++ block)])
        /\ (chat_answered settings post provider "research" system query prov
                          model data ->
           research py_repr settings post query system strip provider
                    Format.text
           = Ok [Echo ((if strip then _strip_thinking c else c) ++ block)])
        /\ (chat_answered settings post provider "reason" system query prov
                          model data ->
           reason py_repr settings post query system strip provider
                  Format.text
           = Ok [Echo ((if strip then _strip_thinking c else c) ++ block)])).
Proof.
  split; [reflexivity |]. split; [reflexivity |].
  split; [apply format_citations_urls |].
  intros query system strip provider prov model data c citations block
         Hc Hg Hf.
  split; [| split]; intros H.
  - rewrite (ask_tail _ _ _ _ _ _ _ _ _ _ H).
    exact (chat_tail_text py_repr false prov model data c citations block
             Hc Hg Hf).
  - rewrite (research_tail _ _ _ _ _ _ _ _ _ _ _ H).
    exact (chat_tail_text py_repr strip prov model data c citations block
             Hc Hg Hf).
  - rewrite (reason_tail _ _ _ _ _ _ _ _ _ _ _ H).
    exact (chat_tail_text py_repr strip prov model data c citations block
             Hc Hg Hf).
Qed.

(** C10. In structured mode a chat command that succeeds with a non-empty
    list of citation URLs writes them twice: the field "response" of the
    envelope is the content followed by the citation block of these URLs,
    and the field "citations" is the list of the same URLs.  The envelope
    is what the command hands to the serialiser, so it is what is written
    whenever the command returns; the command returns exactly when the
    serialiser accepts the envelope, whose model and usage come from the
    body. *)
Theorem citations_twice_in_envelope
  query system strip provider prov model data c urls
  (Hcontent : subscripts data content_path = Ok (JStr c))
  (Hcitations : py_get data "citations" (JArr []) = Ok (JArr (map JStr urls)))
  (Hurls : urls <> []) :
  exists block,
    is_citation_block urls block
    /\ (chat_answered settings post provider "ask" system query prov model
                      data ->
        ask py_repr settings post query system provider Format.json
        = written (chat_envelope (c ++ block)
                                 (get_or data "model" (JStr model)) prov
                                 (JArr (map JStr urls))
                                 (get_or data "usage" JNull)))
    /\ (chat_answered settings post provider "research" system query prov
                      model data ->
        research py_repr settings post query system strip provider Format.json
        = written (chat_envelope
                     ((if strip then _strip_thinking c else c) ++ block)
                     (get_or data "model" (JStr model)) prov
                     (JArr (map JStr urls)) (get_or data "usage" JNull)))
    /\ (chat_answered settings post provider "reason" system query prov model
                      data ->
        reason py_repr settings post query system strip provider Format.json
        = written (chat_envelope
                     ((if strip then _strip_thinking c else c) ++ block)
                     (get_or data "model" (JStr model)) prov
                     (JArr (map JStr urls)) (get_or data "usage" JNull)))
    /\ (forall envelope,
          (dumps_ok envelope = true -> written envelope = Ok [Dump envelope])
          /\ (forall out, written envelope = Ok out -> out = [Dump envelope])).
Proof.
  destruct (format_citations_urls py_repr urls Hurls) as (block & Hf & Hb).
  pose proof (chat_tail_json py_repr false prov model data c _ block
                Hcontent Hcitations Hf) as Hask.
  pose proof (chat_tail_json py_repr strip prov model data c _ block
                Hcontent Hcitations Hf) as Hrun.
  unfold envelope_of in Hask, Hrun.
  rewrite (py_get_get_or _ _ _ _ Hcitations) in Hask, Hrun.
  exists block. split; [exact Hb |].
  split; [| split; [| split]].
  - intros H. now rewrite (ask_tail _ _ _ _ _ _ _ _ _ _ H).
  - intros H. now rewrite (research_tail _ _ _ _ _ _ _ _ _ _ _ H).
  - intros H. now rewrite (reason_tail _ _ _ _ _ _ _ _ _ _ _ H).
  - intros envelope. unfold written. split.
    + now intros ->.
    + intros out. destruct (dumps_ok envelope); [| discriminate].
      now intros [= <-].
Qed.

End CitationBlock.

(** * The search listing *)

Section SearchListing.

Variable py_repr : json -> string.
Variable settings : Settings.
Variable post : Transport.

Lemma hit_fields_assoc (h : Hit) :
  assoc "title" (hit_fields h) = option_map JStr (hit_title h)
  /\ assoc "url" (hit_fields h) = option_map JStr (hit_url h)
  /\ assoc "snippet" (hit_fields h) = option_map JStr (hit_snippet h)
  /\ assoc "date" (hit_fields h) = option_map JStr (hit_date h).
Proof.
  destruct h as [[t |] [u |] [s |] [d |]]; repeat split.
Qed.

Lemma describes_hit_json (h : Hit) : describes h (hit_json h).
Proof.
  exists (hit_fields h). split; [reflexivity | apply hit_fields_assoc].
Qed.

Lemma entry_of_described (k : nat) (h : Hit) (fields : list (string * json)) :
  assoc "title" fields = option_map JStr (hit_title h) ->
  assoc "url" fields = option_map JStr (hit_url h) ->
  assoc "snippet" fields = option_map JStr (hit_snippet h) ->
  assoc "date" fields = option_map JStr (hit_date h) ->
  entry_of py_repr (Z.of_nat k) fields = entry k h.
Proof.
  intros Ht Hu Hs Hd.
  unfold entry_of, entry, field_or, optional_line, or_default, str_of_nat.
  rewrite Ht, Hu, Hs, Hd.
  destruct h as [[t |] [u |] [s |] [d |]];
    cbn [hit_title hit_url hit_snippet hit_date option_map truthy fmt negb];
    repeat match goal with
           | |- context [(?x =? "")%string] =>
               destruct (x =? "")%string; cbn [negb]
           end;
    reflexivity.
Qed.

Lemma listing_of_described (hits : list Hit) :
  forall (items : list json) (k : nat),
    Forall2 describes hits items ->
    exists records,
      items = map JObj records
      /\ listing_of py_repr (Z.of_nat k) records = listing k hits.
Proof.
  induction hits as [| h hits IH]; intros items k HF; inversion HF; subst.
  - exists []. split; reflexivity.
  - match goal with
    | Hh : describes h _, Hr : Forall2 describes hits _ |- _ =>
        destruct Hh as (fields & -> & Ht & Hu & Hs & Hd);
        destruct (IH _ (S k) Hr) as (records & -> & Hl)
    end.
    exists (fields :: records). split; [reflexivity |].
    cbn [listing_of listing].
    rewrite (entry_of_described k h fields Ht Hu Hs Hd).
    replace (Z.of_nat k + 1) with (Z.of_nat (S k)) by lia.
    now rewrite Hl.
Qed.

(** C8, as the code has it. In text mode a search without results prints
    the single line "No results found."; with results it prints one text
    made of the header "Found N search results:", a blank line, and for the
    i-th result, counted from 1, the line "i. **title**" with the title
    between Markdown bold markers ("Untitled" when there is none), the line
    of the URL, a snippet line and a date line when these fields are there
    and not empty, and an empty line.  This holds for results that are
    objects, whatever further fields they have and in whatever order; a
    field that is not a string is printed as Python prints it, and the
    snippet and date lines are there when the field is true in a test. *)
Theorem search_text_listing
  query max_results max_tokens_per_page country data
  (Hsearch : search_answered settings post query max_results
                             max_tokens_per_page country data) :
  (forall results,
     py_get data "results" (JArr []) = Ok results ->
     truthy results = false ->
     search py_repr settings post query max_results max_tokens_per_page
            country Format.text
     = Ok [Echo "No results found."])
  /\ (forall hits items,
     hits <> [] ->
     Forall2 describes hits items ->
     py_get data "results" (JArr []) = Ok (JArr items) ->
     search py_repr settings post query max_results max_tokens_per_page
            country Format.text
     = Ok [Echo (join nl
                   (("Found " ++ str_of_nat (List.length hits)
                     ++ " search results:" ++ nl)
                    :: listing 1 hits))])
  /\ (forall records,
     records <> [] ->
     py_get data "results" (JArr []) = Ok (JArr (map JObj records)) ->
     search py_repr settings post query max_results max_tokens_per_page
            country Format.text
     = Ok [Echo (join nl
                   (("Found " ++ str_of_nat (List.length records)
                     ++ " search results:" ++ nl)
                    :: listing_of py_repr 1 records))]).
Proof.
  split; [| split].
  - intros results Hr Ht.
    rewrite (search_tail py_repr settings post _ _ _ _ Format.text _ Hsearch).
    rewrite Hr. simpl bind. now rewrite Ht.
  - intros hits items Hne HF Hr.
    destruct (listing_of_described hits items 1 HF) as (records & -> & Hl).
    assert (Hlen : List.length records = List.length hits).
    { apply Forall2_length in HF. rewrite length_map in HF. congruence. }
    rewrite (search_text_objects py_repr settings post _ _ _ _ _ records
               Hsearch); [| | exact Hr].
    + change 1 with (Z.of_nat 1). now rewrite Hl, Hlen.
    + intros ->. destruct hits; [congruence | discriminate Hlen].
  - intros records Hne Hr.
    now apply search_text_objects with (data := data).
Qed.

End SearchListing.

(** C8, as stated, fails on the title: it is printed between the markers
    of Markdown bold. *)
Lemma search_title_is_bold :
  search sample_repr sample_settings
         (reply_with 200 []
            (Some (JObj [("results",
                          JArr [JObj [("title", JStr "T"); ("url", JStr "u")]])])))
         "q" 10 1024 None Format.text
  = Ok [Echo ("Found 1 search results:" ++ nl ++ nl ++ "1. **T**" ++ nl
              ++ "   URL: u" ++ nl)]
  /\ find "**" "T" = None
  /\ find "**" ("Found 1 search results:" ++ nl ++ nl ++ "1. **T**" ++ nl
               ++ "   URL: u" ++ nl) = Some 28%nat.
Proof.
  repeat split.
Qed.

Lemma search_text_listing_witness :
  search sample_repr sample_settings
         (reply_with 200 []
            (Some (JObj [("results",
                          JArr [JObj [("last_updated", JStr "2024");
                                      ("snippet", JStr "s");
                                      ("url", JStr "u")]])])))
         "q" 10 1024 None Format.text
  = Ok [Echo ("Found 1 search results:" ++ nl ++ nl ++ "1. **Untitled**" ++ nl
              ++ "   URL: u" ++ nl ++ "   s" ++ nl)].
Proof.
  refine (proj1 (proj2 (search_text_listing sample_repr sample_settings
            (reply_with 200 []
               (Some (JObj [("results",
                             JArr [JObj [("last_updated", JStr "2024");
                                         ("snippet", JStr "s");
                                         ("url", JStr "u")]])])))
            "q" 10 1024 None _ _))
            [mkHit None (Some "u") (Some "s") None] _ _ _ _).
  - repeat split.
  - discriminate.
  - constructor; [| constructor].
    exists [("last_updated", JStr "2024"); ("snippet", JStr "s");
            ("url", JStr "u")].
    repeat split.
  - reflexivity.
Defined.

(** * The statements at sample inputs *)

Lemma search_routes_to_perplexity_only_witness :
  search sample_repr sample_settings (reply_with 200 [] (Some (JObj [])))
         "q" 10 1024 None Format.text
  = search sample_repr sample_settings
           (fun r => if (url r =? "https://api.perplexity.ai/search")%string
                     then reply_with 200 [] (Some (JObj [])) r
                     else OtherFailure)
           "q" 10 1024 None Format.text.
Proof.
  refine (proj2 (proj2 (proj2 (proj2 (proj2 (proj2
            (search_routes_to_perplexity_only sample_settings))))
            "q" 10 1024 None 300000))
            sample_repr _ _ Format.text _ _).
  - reflexivity.
  - reflexivity.
Defined.

Lemma chat_routing_witness :
  _resolve_provider (mkSettings "" "" "" 300000) None "research" = Ok perplexity
  /\ _resolve_provider (mkSettings "" "ok" "" 300000) None "reason"
     = Ok openrouter
  /\ _resolve_provider (mkSettings "" "" "" 300000) (Some openrouter) "ask"
     = Ok openrouter.
Proof.
  split; [| split].
  - refine (proj1 (proj2 (proj2
      (chat_routing (mkSettings "" "" "" 300000) "research" _))) _ _).
    + simpl. auto.
    + reflexivity.
    + reflexivity.
  - refine (proj1 (proj2
      (chat_routing (mkSettings "" "ok" "" 300000) "reason" _)) _ _).
    + simpl. auto.
    + reflexivity.
    + discriminate.
  - refine (proj2 (proj2 (proj2
      (chat_routing (mkSettings "" "" "" 300000) "ask" _))) openrouter).
    simpl. auto.
Defined.

Lemma credential_resolution_witness :
  api_key (_keyring_fallback (fun _ _ => KeyringFailure)
                             (mkSettings "" "" "" 300000)) perplexity = ""
  /\ api_key (_keyring_fallback (fun _ _ => Password "stored")
                                (mkSettings "" "" "" 300000)) openrouter
     = "stored"
  /\ api_key (_keyring_fallback (fun _ _ => Password "stored")
                                (mkSettings "" "set" "" 300000)) openrouter
     = "set".
Proof.
  split; [| split].
  - refine (proj2 (proj2 (proj2
      (credential_resolution (fun _ _ => KeyringFailure)
         (mkSettings "" "" "" 300000) perplexity))) _ _); reflexivity.
  - refine (proj1 (proj2
      (credential_resolution (fun _ _ => Password "stored")
         (mkSettings "" "" "" 300000) openrouter)) "stored" _ _); reflexivity.
  - refine (proj1
      (credential_resolution (fun _ _ => Password "stored")
         (mkSettings "" "set" "" 300000) openrouter) _).
    discriminate.
Defined.

Lemma normaliser_classification_witness :
  (exists rem,
     _chat_request sample_settings
       (reply_with 429 [("Retry-After", "30")] None)
       perplexity "sonar-pro" [] 1000
     = Exit 8 (mkError "Rate limited. Retry after 30s" 8 true rem))
  /\ (exists msg retry rem,
     _search_request sample_settings (reply_with 404 [] None)
       "q" 10 1024 None 1000
     = Exit 9 (mkError msg 9 retry rem) /\ (retry = true <-> 500 <= 404)).
Proof.
  split.
  - exact (proj1 (proj2 (proj2
      (proj1 (normaliser_classification sample_settings)
         perplexity "sonar-pro" [] 1000
         (reply_with 429 [("Retry-After", "30")] None))))
      (mkResponse 429 [("Retry-After", "30")] "" None) eq_refl eq_refl).
  - refine (proj2 (proj2 (proj2 (proj2
      (proj1 (proj2 (normaliser_classification sample_settings))
         "q" 10 1024 None 1000 (reply_with 404 [] None)))))
      (mkResponse 404 [] "" None) eq_refl _ _ _).
    + vm_compute. discriminate.
    + discriminate.
    + discriminate.
Defined.

Lemma citations_block_appended_witness :
  research sample_repr sample_settings
    (reply_with 200 [] (Some (chat_body "<think>t</think>X" ["<think>u"])))
    "q" None true None Format.text
  = Ok [Echo ("X" ++ nl ++ nl ++ "Citations:" ++ nl ++ "[1] <think>u")].
Proof.
  destruct (citations_block_appended sample_repr sample_settings
              (reply_with 200 []
                 (Some (chat_body "<think>t</think>X" ["<think>u"]))))
    as (_ & _ & _ & Hprint).
  refine (proj1 (proj2
            (Hprint "q" None true None perplexity "sonar-deep-research"
               (chat_body "<think>t</think>X" ["<think>u"])
               "<think>t</think>X" (JArr [JStr "<think>u"])
               (nl ++ nl ++ "Citations:" ++ nl ++ "[1] <think>u") _ _ _)) _).
  - reflexivity.
  - reflexivity.
  - reflexivity.
  - repeat split.
Defined.

Lemma citations_twice_in_envelope_witness :
  exists block,
    is_citation_block ["u"] block
    /\ ask sample_repr sample_settings
         (reply_with 200 [] (Some (chat_body "X" ["u"])))
         "q" None None Format.json
       = Ok [Dump (chat_envelope ("X" ++ block) (JStr "m") perplexity
                                 (JArr [JStr "u"]) JNull)].
Proof.
  destruct (citations_twice_in_envelope sample_repr sample_settings
              (reply_with 200 [] (Some (chat_body "X" ["u"])))
              "q" None false None perplexity "sonar-pro"
              (chat_body "X" ["u"]) "X" ["u"])
    as (block & Hb & Hask & _).
  - reflexivity.
  - reflexivity.
  - discriminate.
  - exists block. split; [exact Hb |].
    apply Hask. repeat split.
Defined.

(** * Further properties of routing and the credential check *)

Section RoutingAndAuth.

Variable py_repr : json -> string.
Variable settings : Settings.

(** X1. Routing fails in one case only, the search command asked of
    openrouter; it never raises; and when no provider is given to a chat
    command it never settles on a provider without a key while the other
    provider has one. *)
Theorem routing_failure_characterised (provider : option Provider)
  (command : string) :
  ((exists n err, _resolve_provider settings provider command = Exit n err)
   <-> command = "search" /\ provider = Some openrouter)
  /\ (forall e, _resolve_provider settings provider command <> Raise e)
  /\ (forall p,
        command <> "search" ->
        _resolve_provider settings None command = Ok p ->
        api_key settings p = "" ->
        perplexity_api_key settings = "" /\ openrouter_api_key settings = "").
Proof.
  unfold _resolve_provider, str_truthy.
  destruct (command =? "search")%string eqn:Ec.
  - apply String.eqb_eq in Ec. subst command. split; [| split].
    + split.
      * intros (n & err & H). split; [reflexivity |].
        destruct provider as [[|] |]; try discriminate H. reflexivity.
      * intros (_ & ->). now eexists _, _.
    + intros e. destruct provider as [[|] |]; discriminate.
    + intros p Hne. congruence.
  - apply String.eqb_neq in Ec. split; [| split].
    + split.
      * intros (n & err & H). exfalso.
        destruct provider as [p |]; [discriminate |].
        destruct (perplexity_api_key settings =? "")%string;
          destruct (openrouter_api_key settings =? "")%string; discriminate.
      * intros (Hs & _). congruence.
    + intros e. destruct provider as [p |]; [discriminate |].
      destruct (perplexity_api_key settings =? "")%string;
        destruct (openrouter_api_key settings =? "")%string; discriminate.
    + intros p _.
      destruct (perplexity_api_key settings =? "")%string eqn:Ep;
        destruct (openrouter_api_key settings =? "")%string eqn:Eo;
        simpl; intros [= <-]; unfold api_key; simpl; intros Hk.
      * apply String.eqb_eq in Ep, Eo. now split.
      * apply String.eqb_neq in Eo. congruence.
      * apply String.eqb_neq in Ep. congruence.
      * apply String.eqb_neq in Ep. congruence.
Qed.

Lemma require_auth_missing (p : Provider) :
  api_key settings p = "" ->
  _require_auth settings p = Exit 4 (missing_key_error p).
Proof.
  intros H. unfold _require_auth, str_truthy. rewrite H.
  destruct p; reflexivity.
Qed.

Lemma require_auth_present (p : Provider) :
  api_key settings p <> "" -> _require_auth settings p = Ok tt.
Proof.
  intros H. unfold _require_auth, str_truthy.
  apply String.eqb_neq in H. now rewrite H.
Qed.

(** X2. A command whose provider has no key stops with the structured
    error of code 4 that names the variable of that provider, whatever the
    transport would answer: no request is made.  This holds for the
    provider the router settled on, be it given or detected, and for
    search, which needs the key of perplexity even when openrouter has
    one. *)
Theorem missing_key_stops_before_request (post : Transport)
  (query : string) (system : option string) (strip : bool)
  (provider : option Provider) (format : Format.t) :
  (forall prov, _resolve_provider settings provider "ask" = Ok prov ->
     api_key settings prov = "" ->
     ask py_repr settings post query system provider format
     = Exit 4 (missing_key_error prov))
  /\ (forall prov, _resolve_provider settings provider "research" = Ok prov ->
     api_key settings prov = "" ->
     research py_repr settings post query system strip provider format
     = Exit 4 (missing_key_error prov))
  /\ (forall prov, _resolve_provider settings provider "reason" = Ok prov ->
     api_key settings prov = "" ->
     reason py_repr settings post query system strip provider format
     = Exit 4 (missing_key_error prov))
  /\ (forall max_results max_tokens_per_page country,
     perplexity_api_key settings = "" ->
     search py_repr settings post query max_results max_tokens_per_page
            country format
     = Exit 4 (missing_key_error perplexity)).
Proof.
  repeat split.
  - intros prov Hr Hk. unfold ask. rewrite Hr. cbn [bind].
    now rewrite (require_auth_missing prov Hk).
  - intros prov Hr Hk. unfold research. rewrite Hr. cbn [bind].
    now rewrite (require_auth_missing prov Hk).
  - intros prov Hr Hk. unfold reason. rewrite Hr. cbn [bind].
    now rewrite (require_auth_missing prov Hk).
  - intros max_results max_tokens_per_page country Hk. unfold search.
    now rewrite (require_auth_missing perplexity Hk).
Qed.

End RoutingAndAuth.

Lemma routing_failure_characterised_witness :
  perplexity_api_key (mkSettings "" "" "" 300000) = ""
  /\ openrouter_api_key (mkSettings "" "" "" 300000) = "".
Proof.
  refine (proj2 (proj2
    (routing_failure_characterised (mkSettings "" "" "" 300000) None "ask"))
    perplexity _ _ _).
  - discriminate.
  - reflexivity.
  - reflexivity.
Defined.

Lemma missing_key_stops_before_request_witness :
  ask sample_repr (mkSettings "pk" "" "" 300000) (fun _ => OtherFailure)
      "q" None (Some openrouter) Format.json
  = Exit 4 (mkError "OPENROUTER_API_KEY not set" 4 false
              "Set OPENROUTER_API_KEY env var or run: install.sh")
  /\ search sample_repr (mkSettings "" "ok" "" 300000) (fun _ => OtherFailure)
            "q" 10 1024 None Format.json
     = Exit 4 (mkError "PERPLEXITY_API_KEY not set" 4 false
                 "Set PERPLEXITY_API_KEY env var or run: install.sh").
Proof.
  split.
  - refine (proj1 (missing_key_stops_before_request sample_repr
              (mkSettings "pk" "" "" 300000) (fun _ => OtherFailure)
              "q" None false (Some openrouter) Format.json) openrouter _ _);
      reflexivity.
  - refine (proj2 (proj2 (proj2 (missing_key_stops_before_request sample_repr
              (mkSettings "" "ok" "" 300000) (fun _ => OtherFailure)
              "q" None false None Format.json))) 10 1024 None _).
    reflexivity.
Defined.

(** * Further properties of the HTTP exchange *)

Section Exchange.

Variable py_repr : json -> string.
Variable settings : Settings.

Lemma model_for_chat_command (prov : Provider) (command : string) :
  In command chat_commands -> exists model, model_for prov command = Ok model.
Proof.
  unfold chat_commands. simpl.
  intros [<- | [<- | [<- | []]]]; destruct prov; eexists; reflexivity.
Qed.

(** X3. A chat command talks to the transport once: its outcome under two
    transports is the same as soon as they give the same answer to the one
    request for the provider the router settled on, with the model alias of
    that provider and command.  That request goes to the chat completions
    endpoint under the base URL of the provider, carries the key of the
    provider as bearer token, and the alias exists for every provider and
    chat command. *)
Theorem chat_command_single_request (post post' : Transport)
  (query : string) (system : option string) (strip : bool)
  (provider : option Provider) (format : Format.t)
  (prov : Provider) (model : string) :
  let call := chat_call settings prov model (build_messages system query)
                        (perplexity_timeout_ms settings) in
  url call = base_url settings prov ++ "/chat/completions"
  /\ req_headers call
     = [ ("Content-Type", "application/json");
         ("Authorization", "Bearer " ++ api_key settings prov) ]
  /\ (forall p command, In command chat_commands ->
        exists m, model_for p command = Ok m)
  /\ (post call = post' call ->
      (_resolve_provider settings provider "ask" = Ok prov ->
       model_for prov "ask" = Ok model ->
       ask py_repr settings post query system provider format
       = ask py_repr settings post' query system provider format)
      /\ (_resolve_provider settings provider "research" = Ok prov ->
       model_for prov "research" = Ok model ->
       research py_repr settings post query system strip provider format
       = research py_repr settings post' query system strip provider format)
      /\ (_resolve_provider settings provider "reason" = Ok prov ->
       model_for prov "reason" = Ok model ->
       reason py_repr settings post query system strip provider format
       = reason py_repr settings post' query system strip provider format)).
Proof.
  intros call.
  split; [reflexivity |]. split; [reflexivity |].
  split; [intros p command; apply model_for_chat_command |].
  intros H. repeat split; intros Hr Hm.
  - unfold ask. rewrite Hr. cbn [bind].
    destruct (_require_auth settings prov); try reflexivity. cbn [bind].
    rewrite Hm. cbn [bind]. unfold _chat_request. fold call. now rewrite H.
  - unfold research. rewrite Hr. cbn [bind].
    destruct (_require_auth settings prov); try reflexivity. cbn [bind].
    rewrite Hm. cbn [bind]. unfold _chat_request. fold call. now rewrite H.
  - unfold reason. rewrite Hr. cbn [bind].
    destruct (_require_auth settings prov); try reflexivity. cbn [bind].
    rewrite Hm. cbn [bind]. unfold _chat_request. fold call. now rewrite H.
Qed.

Lemma ladder_ok (resp : HttpResponse) (rem401 : string) (data : json) :
  (if status_code resp =? 429 then
     Exit 8 (mkError ("Rate limited. Retry after "
                      ++ headers_get (headers resp) "retry-after" "unknown"
                      ++ "s") 8 true "")
   else if status_code resp =? 401 then
     Exit 4 (mkError "Authentication failed — invalid API key" 4 false rem401)
   else if 400 <=? status_code resp then
     Exit 9 (mkError ("API error " ++ str_of_Z (status_code resp) ++ ": "
                      ++ resp_text resp) 9 (500 <=? status_code resp) "")
   else resp_json resp) = Ok data
  <-> status_code resp < 400 /\ decoded resp = Some data.
Proof.
  unfold resp_json.
  destruct (status_code resp =? 429) eqn:E429.
  { apply Z.eqb_eq in E429. split; [discriminate | lia]. }
  destruct (status_code resp =? 401) eqn:E401.
  { apply Z.eqb_eq in E401. split; [discriminate | lia]. }
  destruct (400 <=? status_code resp) eqn:E400.
  { apply Z.leb_le in E400. split; [discriminate | lia]. }
  apply Z.leb_gt in E400.
  destruct (decoded resp) as [d |]; split.
  - intros [= ->]. now split.
  - intros [_ [= ->]]. reflexivity.
  - discriminate.
  - intros [_ H]. discriminate H.
Qed.

(** X4. A request succeeds exactly when the transport delivered a response
    whose status is below 400 and whose body decodes: every status below
    400, redirections included, counts as success.  A delivered response
    below 400 whose body does not decode ends in an uncaught
    JSONDecodeError, and a transport failure that is neither a timeout nor
    a connection error is not caught either. *)
Theorem request_success_characterised (post : Transport) :
  (forall provider model messages timeout_ms data,
     _chat_request settings post provider model messages timeout_ms = Ok data
     <-> exists resp,
           post (chat_call settings provider model messages timeout_ms)
           = Responded resp
           /\ status_code resp < 400 /\ decoded resp = Some data)
  /\ (forall query max_results max_tokens_per_page country timeout_ms data,
     _search_request settings post query max_results max_tokens_per_page
                     country timeout_ms = Ok data
     <-> exists resp,
           post (search_call settings query max_results max_tokens_per_page
                             country timeout_ms)
           = Responded resp
           /\ status_code resp < 400 /\ decoded resp = Some data)
  /\ (forall provider model messages timeout_ms resp,
     post (chat_call settings provider model messages timeout_ms)
     = Responded resp ->
     status_code resp < 400 -> decoded resp = None ->
     _chat_request settings post provider model messages timeout_ms
     = Raise JSONDecodeError)
  /\ (forall provider model messages timeout_ms,
     post (chat_call settings provider model messages timeout_ms)
     = OtherFailure ->
     _chat_request settings post provider model messages timeout_ms
     = Raise TransportError).
Proof.
  split; [| split; [| split]].
  - intros provider model messages timeout_ms data. unfold _chat_request.
    destruct (post _) as [resp | | e |].
    + rewrite status_ladder, ladder_ok. split.
      * intros [Hs Hd]. now exists resp.
      * intros (r & [= <-] & Hs & Hd). now split.
    + split; [discriminate | intros (r & H & _); discriminate].
    + split; [discriminate | intros (r & H & _); discriminate].
    + split; [discriminate | intros (r & H & _); discriminate].
  - intros query max_results max_tokens_per_page country timeout_ms data.
    unfold _search_request.
    destruct (post _) as [resp | | e |].
    + rewrite status_ladder, ladder_ok. split.
      * intros [Hs Hd]. now exists resp.
      * intros (r & [= <-] & Hs & Hd). now split.
    + split; [discriminate | intros (r & H & _); discriminate].
    + split; [discriminate | intros (r & H & _); discriminate].
    + split; [discriminate | intros (r & H & _); discriminate].
  - intros provider model messages timeout_ms resp Hp Hs Hd.
    unfold _chat_request. rewrite Hp, status_ladder.
    assert ((status_code resp =? 429) = false) as -> by (apply Z.eqb_neq; lia).
    assert ((status_code resp =? 401) = false) as -> by (apply Z.eqb_neq; lia).
    assert ((400 <=? status_code resp) = false) as -> by (apply Z.leb_gt; lia).
    unfold resp_json. now rewrite Hd.
  - intros provider model messages timeout_ms Hp.
    unfold _chat_request. now rewrite Hp.
Qed.

(** X5. The two request functions treat a reply alike: given the same
    reply of the transport, [_chat_request] and [_search_request] return
    the same body, raise the same exception, or leave with the same exit
    code, message, error code and retryable flag; only the remediation
    hint differs. *)
Theorem chat_and_search_requests_agree (post post' : Transport)
  provider model messages query max_results max_tokens_per_page country
  timeout_ms timeout_ms' :
  post (chat_call settings provider model messages timeout_ms)
  = post' (search_call settings query max_results max_tokens_per_page country
                       timeout_ms') ->
  same_but_remediation
    (_chat_request settings post provider model messages timeout_ms)
    (_search_request settings post' query max_results max_tokens_per_page
                     country timeout_ms').
Proof.
  intros H. unfold _chat_request, _search_request. rewrite H.
  destruct (post' _) as [resp | | e |]; try (simpl; auto; fail).
  rewrite !status_ladder.
  destruct (status_code resp =? 429); [simpl; auto |].
  destruct (status_code resp =? 401); [simpl; auto |].
  destruct (400 <=? status_code resp); [simpl; auto |].
  unfold resp_json. destruct (decoded resp); simpl; auto.
Qed.

End Exchange.

Lemma chat_command_single_request_witness :
  ask sample_repr sample_settings (reply_with 200 [] (Some (chat_body "X" [])))
      "q" None None Format.text
  = ask sample_repr sample_settings
        (fun r =>
           if (url r =? "https://api.perplexity.ai/chat/completions")%string
           then reply_with 200 [] (Some (chat_body "X" [])) r
           else OtherFailure)
        "q" None None Format.text.
Proof.
  refine (proj1 (proj2 (proj2 (proj2
            (chat_command_single_request sample_repr sample_settings _ _
               "q" None false None Format.text perplexity "sonar-pro"))) _)
            _ _).
  - reflexivity.
  - reflexivity.
  - reflexivity.
Defined.

Lemma request_success_characterised_witness :
  _chat_request sample_settings (reply_with 302 [] None) perplexity "sonar-pro"
                [] 1000
  = Raise JSONDecodeError.
Proof.
  refine (proj1 (proj2 (proj2
            (request_success_characterised sample_settings
               (reply_with 302 [] None))))
            perplexity "sonar-pro" [] 1000 (mkResponse 302 [] "" None) _ _ _).
  - reflexivity.
  - reflexivity.
  - reflexivity.
Defined.

Lemma chat_and_search_requests_agree_witness :
  same_but_remediation
    (_chat_request sample_settings (reply_with 401 [] None) perplexity
                   "sonar-pro" [] 1000)
    (_search_request sample_settings (reply_with 401 [] None) "q" 10 1024 None
                     1000).
Proof.
  apply (chat_and_search_requests_agree sample_settings
           (reply_with 401 [] None) (reply_with 401 [] None)).
  reflexivity.
Defined.

(** * What a command can end in *)

Section CommandOutcomes.

Variable py_repr : json -> string.
Variable settings : Settings.
Variable post : Transport.

Lemma sat_bind {A B : Type} (Q : A -> Prop) (P : B -> Prop)
  (E : Z -> ErrorInfo -> Prop) (c : Outcome A) (k : A -> Outcome B) :
  sat Q E c -> (forall a, Q a -> sat P E (k a)) -> sat P E (bind c k).
Proof.
  destruct c as [a | n err | e]; simpl; auto.
Qed.

Lemma sat_getitem E obj sub : sat anything E (getitem obj sub).
Proof.
  destruct obj as [| b | z | s | l | kv], sub as [k | i]; simpl;
    try exact I.
  - destruct (nth_char i s); exact I.
  - destruct (nth_error l i); exact I.
  - destruct (assoc k kv); exact I.
Qed.

Lemma sat_subscripts E path : forall obj, sat anything E (subscripts obj path).
Proof.
  induction path as [| sub path IH]; intros obj; simpl; [exact I |].
  eapply sat_bind; [apply sat_getitem | intros v _; apply IH].
Qed.

Lemma sat_py_get E obj key default : sat anything E (py_get obj key default).
Proof. destruct obj; exact I. Qed.

Lemma sat_iterate E x : sat anything E (iterate x).
Proof. destruct x; exact I. Qed.

Lemma sat_py_len E x : sat anything E (py_len x).
Proof. destruct x; exact I. Qed.

Lemma sat_add_str E a b : sat anything E (add_str a b).
Proof. destruct a; exact I. Qed.

Lemma sat_strip_content E c : sat anything E (strip_content c).
Proof. destruct c; exact I. Qed.

Lemma sat_format_citations E citations :
  sat anything E (_format_citations py_repr citations).
Proof.
  unfold _format_citations. destruct (negb (truthy citations)); [exact I |].
  destruct citations; exact I.
Qed.

Lemma sat_model_for E prov command : sat anything E (model_for prov command).
Proof.
  unfold model_for. destruct prov; simpl.
  - repeat match goal with
           | |- context [(command =? ?k)%string] =>
               destruct (command =? k)%string; [exact I |]
           end; exact I.
  - repeat match goal with
           | |- context [(command =? ?k)%string] =>
               destruct (command =? k)%string; [exact I |]
           end; exact I.
Qed.

Lemma sat_resolve_chat E provider command :
  (command =? "search")%string = false ->
  sat anything E (_resolve_provider settings provider command).
Proof.
  intros Hc. unfold _resolve_provider. rewrite Hc.
  destruct provider; [exact I |].
  destruct (str_truthy (perplexity_api_key settings)); [exact I |].
  destruct (str_truthy (openrouter_api_key settings)); exact I.
Qed.

Lemma sat_require_auth prov :
  sat anything command_exit (_require_auth settings prov).
Proof.
  unfold _require_auth.
  destruct (negb (str_truthy (api_key settings prov))); [| exact I].
  simpl. unfold command_exit. simpl. auto.
Qed.

Lemma sat_ladder {A : Type} (resp : HttpResponse) (rem401 : string)
  (k : Outcome A) :
  sat anything command_exit k ->
  sat anything command_exit
    (if status_code resp =? 429 then
       Exit 8 (mkError ("Rate limited. Retry after "
                        ++ headers_get (headers resp) "retry-after" "unknown"
                        ++ "s") 8 true "")
     else if status_code resp =? 401 then
       Exit 4 (mkError "Authentication failed — invalid API key" 4 false
                       rem401)
     else if 400 <=? status_code resp then
       Exit 9 (mkError ("API error " ++ str_of_Z (status_code resp) ++ ": "
                        ++ resp_text resp) 9 (500 <=? status_code resp) "")
     else k).
Proof.
  intros Hk.
  destruct (status_code resp =? 429);
    [unfold sat, command_exit; simpl; auto 6 |].
  destruct (status_code resp =? 401);
    [unfold sat, command_exit; simpl; auto 6 |].
  destruct (400 <=? status_code resp);
    [unfold sat, command_exit; simpl; auto 6 | exact Hk].
Qed.

Lemma sat_resp_json E resp : sat anything E (resp_json resp).
Proof. unfold resp_json. destruct (decoded resp); exact I. Qed.

Lemma sat_chat_request prov model messages timeout_ms :
  sat anything command_exit
      (_chat_request settings post prov model messages timeout_ms).
Proof.
  unfold _chat_request.
  destruct (post _) as [resp | | e |];
    try (unfold sat, command_exit; simpl; auto 6; fail).
  rewrite status_ladder. apply sat_ladder, sat_resp_json.
Qed.

Lemma sat_search_request query max_results max_tokens_per_page country
  timeout_ms :
  sat anything command_exit
      (_search_request settings post query max_results max_tokens_per_page
                       country timeout_ms).
Proof.
  unfold _search_request.
  destruct (post _) as [resp | | e |];
    try (unfold sat, command_exit; simpl; auto 6; fail).
  rewrite status_ladder. apply sat_ladder, sat_resp_json.
Qed.

Lemma sat_result_lines E ir : sat anything E (result_lines py_repr ir).
Proof.
  unfold result_lines.
  eapply sat_bind; [apply sat_py_get | intros title _].
  eapply sat_bind; [apply sat_py_get | intros u _].
  eapply sat_bind; [apply sat_py_get | intros snippet _].
  eapply sat_bind with (Q := anything).
  { destruct (truthy snippet); [| exact I].
    eapply sat_bind; [apply sat_getitem | intros; exact I]. }
  intros l3 _.
  eapply sat_bind; [apply sat_py_get | intros date _].
  eapply sat_bind with (Q := anything); [| intros; exact I].
  destruct (truthy date); [| exact I].
  eapply sat_bind; [apply sat_getitem | intros; exact I].
Qed.

Lemma sat_results_loop E todo :
  forall lines, sat anything E (results_loop py_repr lines todo).
Proof.
  induction todo as [| ir todo IH]; intros lines; simpl; [exact I |].
  eapply sat_bind; [apply sat_result_lines | intros added _; apply IH].
Qed.

Lemma sat_emit_json E (fields : list (string * json)) :
  assoc "status" fields = Some (JStr "success") ->
  sat (one_record Format.json) E (emit py_repr (JObj fields) Format.json).
Proof.
  intros Hs. unfold emit. destruct (dumps_ok (JObj fields)); [| exact I].
  simpl. now exists fields.
Qed.

Lemma sat_chat_tail strip format prov model data :
  sat (one_record format) command_exit
      (chat_tail py_repr strip format prov model data).
Proof.
  unfold chat_tail.
  eapply sat_bind; [apply sat_subscripts | intros content _].
  eapply sat_bind with (Q := anything).
  { destruct strip; [apply sat_strip_content | exact I]. }
  intros content' _.
  eapply sat_bind; [apply sat_py_get | intros citations _].
  eapply sat_bind; [apply sat_format_citations | intros block _].
  eapply sat_bind; [apply sat_add_str | intros response_text _].
  destruct format.
  - eapply sat_bind; [apply sat_py_get | intros model' _].
    eapply sat_bind; [apply sat_py_get | intros usage _].
    now apply sat_emit_json.
  - simpl. now eexists.
Qed.

(** X6. Whatever the arguments, the configuration and the transport, each
    of the four commands ends in one of three ways.  When it returns, it
    has written exactly one record on standard output: one text in text
    mode, one envelope with status "success" in structured mode.  When it
    leaves with a structured error, the exit code of the process is the
    code of the envelope, it is 4, 7, 8 or 9, never 2, and the retryable
    flag is off for 4 and on for 7 and 8.  Otherwise an exception escaped. *)
Theorem command_outcomes
  (query : string) (system : option string) (strip : bool)
  (provider : option Provider) (format : Format.t)
  (max_results max_tokens_per_page : Z) (country : option string) :
  sat (one_record format) command_exit
      (ask py_repr settings post query system provider format)
  /\ sat (one_record format) command_exit
         (research py_repr settings post query system strip provider format)
  /\ sat (one_record format) command_exit
         (reason py_repr settings post query system strip provider format)
  /\ sat (one_record format) command_exit
         (search py_repr settings post query max_results max_tokens_per_page
                 country format).
Proof.
  split; [| split; [| split]].
  - unfold ask.
    eapply sat_bind; [now apply sat_resolve_chat | intros prov _].
    eapply sat_bind; [apply sat_require_auth | intros _ _].
    eapply sat_bind; [apply sat_model_for | intros model _].
    eapply sat_bind; [apply sat_chat_request | intros data _].
    apply (sat_chat_tail false).
  - unfold research.
    eapply sat_bind; [now apply sat_resolve_chat | intros prov _].
    eapply sat_bind; [apply sat_require_auth | intros _ _].
    eapply sat_bind; [apply sat_model_for | intros model _].
    eapply sat_bind; [apply sat_chat_request | intros data _].
    apply (sat_chat_tail strip).
  - unfold reason.
    eapply sat_bind; [now apply sat_resolve_chat | intros prov _].
    eapply sat_bind; [apply sat_require_auth | intros _ _].
    eapply sat_bind; [apply sat_model_for | intros model _].
    eapply sat_bind; [apply sat_chat_request | intros data _].
    apply (sat_chat_tail strip).
  - unfold search.
    eapply sat_bind; [apply sat_require_auth | intros _ _].
    eapply sat_bind; [apply sat_search_request | intros data _].
    eapply sat_bind; [apply sat_py_get | intros results _].
    destruct format.
    + eapply sat_bind; [apply sat_py_len | intros n _].
      now apply sat_emit_json.
    + destruct (negb (truthy results)); [simpl; now eexists |].
      eapply sat_bind; [apply sat_py_len | intros n _].
      eapply sat_bind; [apply sat_iterate | intros items _].
      eapply sat_bind; [apply sat_results_loop | intros lines _].
      simpl. now eexists.
Qed.

End CommandOutcomes.

(** * Bodies with missing or odd fields *)

Section OddBodies.

Variable py_repr : json -> string.
Variable settings : Settings.
Variable post : Transport.

Lemma run_chat_tail command query system strip provider format prov model data :
  In command chat_commands ->
  chat_answered settings post provider command system query prov model data ->
  run_chat py_repr settings post command query system strip provider format
  = chat_tail py_repr (strips command strip) format prov model data.
Proof.
  unfold chat_commands, run_chat, strips. simpl.
  intros [<- | [<- | [<- | []]]] H; simpl.
  - now apply ask_tail.
  - now apply research_tail.
  - now apply reason_tail.
Qed.

Lemma append_empty (s : string) : s ++ "" = s.
Proof. induction s as [| c s IH]; simpl; [reflexivity | now rewrite IH]. Qed.

(** X7. Fields a success body leaves out are defaulted.  When the body has
    no "citations", or a null or empty one, the response text is the
    content alone, stripped if that was asked for, with no citation block;
    in structured mode the field "citations" is the empty list when the key
    is missing and the value found otherwise, "model" is the alias that was
    requested when the body names none, and "usage" is null when the body
    has none; the envelope is written when the serialiser accepts it, and
    its TypeError escapes otherwise. *)
Theorem chat_body_defaults
  command query system strip provider prov model fields c
  (Hcommand : In command chat_commands)
  (Hanswer : chat_answered settings post provider command system query prov
                           model (JObj fields))
  (Hcontent : subscripts (JObj fields) content_path = Ok (JStr c))
  (Hcitations : truthy (field_or fields "citations" (JArr [])) = false) :
  run_chat py_repr settings post command query system strip provider
           Format.text
  = Ok [Echo (if strips command strip then _strip_thinking c else c)]
  /\ run_chat py_repr settings post command query system strip provider
              Format.json
     = written (chat_envelope
                  (if strips command strip then _strip_thinking c else c)
                  (field_or fields "model" (JStr model)) prov
                  (field_or fields "citations" (JArr []))
                  (field_or fields "usage" JNull)).
Proof.
  assert (Hf : _format_citations py_repr (field_or fields "citations" (JArr []))
               = Ok "").
  { unfold _format_citations. now rewrite Hcitations. }
  split.
  - rewrite (run_chat_tail _ _ _ _ _ _ _ _ _ Hcommand Hanswer).
    rewrite (chat_tail_text py_repr _ prov model (JObj fields) c
               (field_or fields "citations" (JArr [])) "" Hcontent eq_refl Hf).
    unfold processed. now rewrite append_empty.
  - rewrite (run_chat_tail _ _ _ _ _ _ _ _ _ Hcommand Hanswer).
    rewrite (chat_tail_json py_repr (strips command strip) prov model
               (JObj fields) c (field_or fields "citations" (JArr [])) ""
               Hcontent eq_refl Hf).
    unfold processed, envelope_of, get_or. now rewrite append_empty.
Qed.

(** X8. The two modes of search treat odd bodies differently.  A body
    that is not an object ends in an AttributeError in both modes.  When
    "results" is null, false or zero, text mode prints "No results found."
    while structured mode ends in a TypeError.  Without the key, structured
    mode reports the empty list with count 0.  A list of results is handed
    to the serialiser in structured mode as it came, with its length as
    count, even when an entry is not an object, and is written when the
    serialiser accepts it, whereas text mode ends in an AttributeError
    when the first entry is not an object. *)
Theorem search_odd_bodies
  query max_results max_tokens_per_page country data
  (Hsearch : search_answered settings post query max_results
                             max_tokens_per_page country data) :
  (is_object data = false ->
     forall format,
       search py_repr settings post query max_results max_tokens_per_page
              country format = Raise AttributeError)
  /\ (forall fields,
        data = JObj fields ->
        falsy_unsized (field_or fields "results" (JArr [])) ->
        search py_repr settings post query max_results max_tokens_per_page
               country Format.text = Ok [Echo "No results found."]
        /\ search py_repr settings post query max_results max_tokens_per_page
                  country Format.json = Raise TypeError)
  /\ (forall fields,
        data = JObj fields ->
        assoc "results" fields = None ->
        search py_repr settings post query max_results max_tokens_per_page
               country Format.json
        = Ok [Dump (JObj [ ("status", JStr "success");
                           ("data", JArr []);
                           ("metadata", JObj [ ("count", JNum 0);
                                               ("query", JStr query) ]) ])])
  /\ (forall fields items,
        data = JObj fields ->
        assoc "results" fields = Some (JArr items) ->
        search py_repr settings post query max_results max_tokens_per_page
               country Format.json
        = written (JObj [ ("status", JStr "success");
                          ("data", JArr items);
                          ("metadata",
                           JObj [ ("count",
                                   JNum (Z.of_nat (List.length items)));
                                  ("query", JStr query) ]) ]))
  /\ (forall fields item items,
        data = JObj fields ->
        assoc "results" fields = Some (JArr (item :: items)) ->
        is_object item = false ->
        search py_repr settings post query max_results max_tokens_per_page
               country Format.text = Raise AttributeError).
Proof.
  split; [| split; [| split; [| split]]].
  - intros Hd format. rewrite (search_tail _ _ _ _ _ _ _ _ _ Hsearch).
    destruct data; try reflexivity. discriminate Hd.
  - intros fields -> Hf.
    rewrite !(search_tail _ _ _ _ _ _ _ _ _ Hsearch).
    unfold field_or in Hf. cbn [py_get bind].
    destruct Hf as [-> | [-> | ->]]; split; reflexivity.
  - intros fields -> Hf.
    rewrite (search_tail _ _ _ _ _ _ _ _ _ Hsearch).
    cbn [py_get bind]. rewrite Hf. reflexivity.
  - intros fields items -> Hf.
    rewrite (search_tail _ _ _ _ _ _ _ _ _ Hsearch).
    cbn [py_get bind]. rewrite Hf. reflexivity.
  - intros fields item items -> Hf Hi.
    rewrite (search_tail _ _ _ _ _ _ _ _ _ Hsearch).
    cbn [py_get bind]. rewrite Hf.
    cbn [truthy negb py_len iterate bind enumerate results_loop].
    unfold result_lines. cbn [fst snd].
    destruct item; try reflexivity. discriminate Hi.
Qed.

End OddBodies.

Lemma chat_body_defaults_witness :
  run_chat sample_repr sample_settings
    (reply_with 200 []
       (Some (JObj [("choices",
                     JArr [JObj [("message",
                                  JObj [("content", JStr "<think>t</think>X")])]]);
                    ("citations", JNull)])))
    "reason" "q" None true None Format.json
  = written (chat_envelope "X" (JStr "sonar-reasoning-pro") perplexity JNull
                           JNull).
Proof.
  refine (proj2 (chat_body_defaults sample_repr sample_settings _
            "reason" "q" None true None perplexity "sonar-reasoning-pro"
            [("choices",
              JArr [JObj [("message",
                           JObj [("content", JStr "<think>t</think>X")])]]);
             ("citations", JNull)]
            "<think>t</think>X" _ _ _ _)).
  - simpl. auto.
  - repeat split.
  - reflexivity.
  - reflexivity.
Defined.

Lemma search_odd_bodies_witness :
  search sample_repr sample_settings
         (reply_with 200 [] (Some (JObj [("results", JNull)])))
         "q" 10 1024 None Format.text = Ok [Echo "No results found."]
  /\ search sample_repr sample_settings
            (reply_with 200 [] (Some (JObj [("results", JNull)])))
            "q" 10 1024 None Format.json = Raise TypeError.
Proof.
  refine (proj1 (proj2 (search_odd_bodies sample_repr sample_settings
            (reply_with 200 [] (Some (JObj [("results", JNull)])))
            "q" 10 1024 None (JObj [("results", JNull)]) _))
            [("results", JNull)] eq_refl _).
  - repeat split.
  - left. reflexivity.
Defined.

(** * Further properties of the strip *)

Section ThinkBlocks.

Lemma sub_think_skip (s : string) :
  forall k, sub_think k s = sub_think O (drop k s).
Proof.
  induction s as [| c s IH]; intros [| k]; try reflexivity.
  simpl drop. change (sub_think (S k) (String c s)) with (sub_think k s).
  apply IH.
Qed.

Lemma drop_app_length (u v : string) (k : nat) :
  drop (String.length u + k) (u ++ v) = drop k v.
Proof.
  induction u as [| c u IH]; simpl; [reflexivity | exact IH].
Qed.

Lemma startswith_app_self (n t : string) : startswith (n ++ t) n = true.
Proof.
  induction n as [| c n IH]; simpl; [reflexivity |].
  now rewrite Ascii.eqb_refl.
Qed.

Lemma startswith_before (n' : string) (x : ascii) (u : string) :
  occurs x n' = false ->
  forall b, startswith (b ++ String x u) n' = true -> startswith b n' = true.
Proof.
  induction n' as [| z n' IH]; intros Hx b H; [reflexivity |].
  simpl in Hx. apply orb_false_iff in Hx as [Hxz Hx].
  destruct b as [| w b]; simpl in *.
  - rewrite Ascii.eqb_sym in Hxz. rewrite Hxz in H. discriminate.
  - apply andb_true_iff in H as [Hzw H]. rewrite Hzw. simpl.
    now apply IH.
Qed.

Lemma append_assoc (a b c : string) : (a ++ b) ++ c = a ++ (b ++ c).
Proof. induction a as [| x a IH]; simpl; [reflexivity | now rewrite IH]. Qed.

Lemma startswith_straddle (x : ascii) (n' : string) (y : ascii)
  (b t : string) :
  occurs x n' = false ->
  startswith (String y b) (String x n') = false ->
  startswith (String y (b ++ String x n' ++ t)) (String x n') = false.
Proof.
  intros Hx Hb. simpl in *.
  destruct (Ascii.eqb x y); [| reflexivity]. simpl in *.
  destruct (startswith (b ++ String x (n' ++ t)) n') eqn:E; [| reflexivity].
  apply (startswith_before n' x (n' ++ t) Hx) in E. congruence.
Qed.

Lemma find_first_after (x : ascii) (n' : string) (t : string) :
  occurs x n' = false ->
  forall b, find (String x n') b = None ->
    find (String x n') (b ++ String x n' ++ t) = Some (String.length b).
Proof.
  intros Hx. induction b as [| y b IH]; intros Hb.
  - change ("" ++ String x n' ++ t) with (String x (n' ++ t)).
    change (find (String x n') (String x (n' ++ t)))
      with (if startswith (String x (n' ++ t)) (String x n') then Some O
            else option_map S (find (String x n') (n' ++ t))).
    change (String x (n' ++ t)) with (String x n' ++ t).
    now rewrite startswith_app_self.
  - pose proof (find_none_start _ _ Hb) as Hs.
    apply find_none_tail in Hb.
    change (String y b ++ String x n' ++ t)
      with (String y (b ++ String x n' ++ t)).
    change (find (String x n') (String y (b ++ String x n' ++ t)))
      with (if startswith (String y (b ++ String x n' ++ t)) (String x n')
            then Some O
            else option_map S (find (String x n') (b ++ String x n' ++ t))).
    rewrite (startswith_straddle x n' y b t Hx Hs).
    now rewrite (IH Hb).
Qed.

Lemma sub_think_before_tag (r : string) :
  forall a, find "<think>" a = None ->
    sub_think O (a ++ "<think>" ++ r) = a ++ sub_think O ("<think>" ++ r).
Proof.
  induction a as [| y a IH]; intros Ha; [reflexivity |].
  pose proof (find_none_start _ _ Ha) as Hs.
  apply find_none_tail in Ha.
  change (String y a ++ "<think>" ++ r) with (String y (a ++ "<think>" ++ r)).
  change (sub_think O (String y (a ++ "<think>" ++ r)))
    with (match match_think (String y (a ++ "<think>" ++ r)) with
          | Some len => sub_think (Nat.pred len) (a ++ "<think>" ++ r)
          | None => String y (sub_think O (a ++ "<think>" ++ r))
          end).
  unfold match_think.
  rewrite (startswith_straddle "<" "think>" y a r eq_refl Hs).
  now rewrite (IH Ha).
Qed.

Lemma sub_think_block (b c : string) :
  find "</think>" b = None ->
  sub_think O ("<think>" ++ b ++ "</think>" ++ c) = sub_think O c.
Proof.
  intros Hb.
  change ("<think>" ++ b ++ "</think>" ++ c)
    with (String "<" ("think>" ++ b ++ "</think>" ++ c)).
  change (sub_think O (String "<" ("think>" ++ b ++ "</think>" ++ c)))
    with (match match_think (String "<" ("think>" ++ b ++ "</think>" ++ c)) with
          | Some len => sub_think (Nat.pred len) ("think>" ++ b ++ "</think>" ++ c)
          | None => String "<" (sub_think O ("think>" ++ b ++ "</think>" ++ c))
          end).
  assert (Hm : match_think (String "<" ("think>" ++ b ++ "</think>" ++ c))
               = Some (7 + String.length b + 8)%nat).
  { unfold match_think.
    change (String "<" ("think>" ++ b ++ "</think>" ++ c))
      with ("<think>" ++ (b ++ "</think>" ++ c)).
    rewrite startswith_app_self.
    change (drop 7 ("<think>" ++ b ++ "</think>" ++ c))
      with (b ++ "</think>" ++ c).
    now rewrite (find_first_after "<" "/think>" c eq_refl b Hb). }
  rewrite Hm. rewrite sub_think_skip.
  change (Nat.pred (7 + String.length b + 8)) with (6 + String.length b + 8)%nat.
  change (drop (6 + String.length b + 8) ("think>" ++ b ++ "</think>" ++ c))
    with (drop (String.length b + 8) (b ++ "</think>" ++ c)).
  now rewrite drop_app_length.
Qed.

Lemma find_none_drop (needle : string) (k : nat) :
  forall s, find needle s = None -> find needle (drop k s) = None.
Proof.
  induction k as [| k IH]; intros s H; [exact H |].
  destruct s as [| c s]; [exact H |].
  simpl. apply IH. eapply find_none_tail, H.
Qed.

Lemma sub_think_unclosed (s : string) :
  find "</think>" s = None -> sub_think O s = s.
Proof.
  induction s as [| c s IH]; intros H; [reflexivity |].
  change (sub_think O (String c s))
    with (match match_think (String c s) with
          | Some len => sub_think (Nat.pred len) s
          | None => String c (sub_think O s)
          end).
  assert (Hm : match_think (String c s) = None).
  { unfold match_think. destruct (startswith (String c s) "<think>");
      [| reflexivity].
    now rewrite (find_none_drop "</think>" 7 (String c s) H). }
  rewrite Hm. rewrite IH; [reflexivity |]. eapply find_none_tail, H.
Qed.

(** X9. A well-formed block goes away with all it holds, line breaks
    included: when the text before the opening tag holds no opening tag
    and the text between the tags no closing tag, the block is removed and
    the text after it is treated in the same way; if that text holds no
    opening tag, what is left is the text before and the text after the
    block, trimmed. *)
Theorem think_block_removed (a b c : string)
  (Ha : find "<think>" a = None) (Hb : find "</think>" b = None) :
  _strip_thinking (a ++ "<think>" ++ b ++ "</think>" ++ c)
  = strip (a ++ sub_think O c)
  /\ (find "<think>" c = None ->
      _strip_thinking (a ++ "<think>" ++ b ++ "</think>" ++ c)
      = strip (a ++ c)).
Proof.
  assert (H : _strip_thinking (a ++ "<think>" ++ b ++ "</think>" ++ c)
              = strip (a ++ sub_think O c)).
  { unfold _strip_thinking.
    rewrite (sub_think_before_tag (b ++ "</think>" ++ c) a Ha).
    now rewrite (sub_think_block b c Hb). }
  split; [exact H |].
  intros Hc. rewrite H. now rewrite (sub_think_no_tag c Hc).
Qed.

(** X10. Without a closing tag nothing is removed: an opening tag that is
    never closed stays in the text, which is only trimmed. *)
Theorem unclosed_think_kept (text : string) :
  find "</think>" text = None -> _strip_thinking text = strip text.
Proof.
  intros H. unfold _strip_thinking. now rewrite sub_think_unclosed.
Qed.

Lemma lstrip_length (s : string) :
  (String.length (lstrip s) <= String.length s)%nat.
Proof.
  induction s as [| c s IH]; simpl; [lia |].
  destruct (is_space c); simpl; lia.
Qed.

Lemma rstrip_length (s : string) :
  (String.length (rstrip s) <= String.length s)%nat.
Proof.
  induction s as [| c s IH]; simpl; [lia |].
  destruct (rstrip s); [destruct (is_space c) |]; simpl in *; lia.
Qed.

Lemma sub_think_length (s : string) :
  forall k, (String.length (sub_think k s) <= String.length s)%nat.
Proof.
  induction s as [| c s IH]; intros k; [destruct k; simpl; lia |].
  destruct k as [| k].
  - change (sub_think O (String c s))
      with (match match_think (String c s) with
            | Some len => sub_think (Nat.pred len) s
            | None => String c (sub_think O s)
            end).
    destruct (match_think (String c s)) as [len |].
    + specialize (IH (Nat.pred len)). simpl. lia.
    + specialize (IH O). simpl. lia.
  - change (sub_think (S k) (String c s)) with (sub_think k s).
    specialize (IH k). simpl. lia.
Qed.

(** X11. The result of the strip never has whitespace at either end, so
    that trimming it again changes nothing, and it is never longer than
    the text it was made from. *)
Theorem strip_thinking_trimmed (text : string) :
  lstrip (_strip_thinking text) = _strip_thinking text
  /\ rstrip (_strip_thinking text) = _strip_thinking text
  /\ strip (_strip_thinking text) = _strip_thinking text
  /\ (String.length (_strip_thinking text) <= String.length text)%nat.
Proof.
  unfold _strip_thinking. repeat split.
  - unfold strip. apply lstrip_clean, rstrip_starts_clean, lstrip_starts_clean.
  - unfold strip. apply rstrip_idempotent.
  - apply strip_idempotent.
  - unfold strip.
    pose proof (rstrip_length (lstrip (sub_think O text))).
    pose proof (lstrip_length (sub_think O text)).
    pose proof (sub_think_length text O). lia.
Qed.

End ThinkBlocks.

Lemma think_block_removed_witness :
  _strip_thinking (" before " ++ "<think>" ++ "line 1" ++ nl ++ "line 2"
                   ++ "</think>" ++ " after ")
  = "before  after".
Proof.
  exact (proj2 (think_block_removed " before " ("line 1" ++ nl ++ "line 2")
                  " after " eq_refl eq_refl) eq_refl).
Defined.

Lemma unclosed_think_kept_witness :
  _strip_thinking " <think>never closed " = "<think>never closed".
Proof.
  exact (unclosed_think_kept " <think>never closed " eq_refl).
Defined.

(** * Further properties of the keyring fallback *)

Section KeyringFallback.

Variable kr : Keyring.

Lemma settings_ext (a b : Settings) :
  api_key a perplexity = api_key b perplexity ->
  api_key a openrouter = api_key b openrouter ->
  perplexity_base_url a = perplexity_base_url b ->
  perplexity_timeout_ms a = perplexity_timeout_ms b ->
  a = b.
Proof.
  destruct a, b. unfold api_key. simpl. congruence.
Qed.

Lemma fallback_field_rest (s : Settings) (p : Provider) :
  perplexity_base_url (fallback_field kr s (secret_field p))
  = perplexity_base_url s
  /\ perplexity_timeout_ms (fallback_field kr s (secret_field p))
     = perplexity_timeout_ms s.
Proof.
  unfold fallback_field.
  destruct (str_truthy (getattr s (secret_field p))); [now split |].
  destruct (kr "perplexity" (secret_field p)) as [val | |]; try now split.
  destruct (str_truthy val); [| now split].
  destruct p; now split.
Qed.

Lemma keyring_fallback_rest (s : Settings) :
  perplexity_base_url (_keyring_fallback kr s) = perplexity_base_url s
  /\ perplexity_timeout_ms (_keyring_fallback kr s) = perplexity_timeout_ms s.
Proof.
  unfold _keyring_fallback. simpl.
  change "perplexity_api_key" with (secret_field perplexity).
  change "openrouter_api_key" with (secret_field openrouter).
  destruct (fallback_field_rest s perplexity) as [H1 H2].
  destruct (fallback_field_rest (fallback_field kr s (secret_field perplexity))
              openrouter) as [H3 H4].
  split; congruence.
Qed.

(** X12. The fallback touches the two secrets only and settles at once:
    the base URL and the timeout are kept, a secret that ends up empty was
    empty before, and running the fallback a second time with the same
    keyring changes nothing. *)
Theorem keyring_fallback_stable (self : Settings) :
  _keyring_fallback kr (_keyring_fallback kr self) = _keyring_fallback kr self
  /\ perplexity_base_url (_keyring_fallback kr self) = perplexity_base_url self
  /\ perplexity_timeout_ms (_keyring_fallback kr self)
     = perplexity_timeout_ms self
  /\ (forall p, api_key (_keyring_fallback kr self) p = "" ->
                api_key self p = "").
Proof.
  destruct (keyring_fallback_rest self) as [Hu Ht].
  destruct (keyring_fallback_rest (_keyring_fallback kr self)) as [Hu' Ht'].
  assert (Hkey : forall p,
             api_key (_keyring_fallback kr (_keyring_fallback kr self)) p
             = api_key (_keyring_fallback kr self) p).
  { intros p. rewrite (keyring_fallback_api_key kr (_keyring_fallback kr self)).
    rewrite (keyring_fallback_api_key kr self). unfold str_truthy.
    destruct (api_key self p =? "")%string eqn:E; simpl.
    - destruct (kr "perplexity" (secret_field p)) as [val | |];
        try reflexivity.
      destruct (val =? "")%string; reflexivity.
    - now rewrite E. }
  split; [| split; [exact Hu | split; [exact Ht |]]].
  - apply settings_ext; auto; congruence.
  - intros p. rewrite (keyring_fallback_api_key kr self). unfold str_truthy.
    destruct (api_key self p =? "")%string eqn:E; simpl.
    + intros _. now apply String.eqb_eq.
    + trivial.
Qed.

End KeyringFallback.

Lemma keyring_fallback_stable_witness :
  api_key (mkSettings "" "ok" "" 300000) perplexity = "".
Proof.
  refine (proj2 (proj2 (proj2
            (keyring_fallback_stable (fun _ _ => NoPassword)
               (mkSettings "" "ok" "" 300000)))) perplexity _).
  reflexivity.
Defined.

(** * The auth status command *)

Section AuthStatus.

Variable py_repr : json -> string.
Variable settings : Settings.
Variable environ : Environ.

Lemma auth_status_returns (format : Format.t) :
  exists out,
    auth_status py_repr settings environ format
    = Ok (out, if str_truthy (perplexity_api_key settings)
                  || str_truthy (openrouter_api_key settings)
               then 0 else 4).
Proof.
  unfold auth_status.
  destruct (str_truthy (perplexity_api_key settings));
    destruct (str_truthy (openrouter_api_key settings));
    destruct format; eexists; reflexivity.
Qed.

(** X13. The auth status command always returns from its write, and exits
    with 0 when at least one of the two keys is set and with 4 otherwise.
    In structured mode it writes one envelope in both cases, whose status
    is "success" even when the exit code is 4; the envelope tells for each
    provider whether its key is set and, only if it is, whether the key is
    also in the environment ("env") or not ("keyring"); the remediation
    hint is there exactly when no key is set.  In text mode it prints three
    lines, the first for the flag "authenticated" and the third naming the
    service, and a fourth with the hint when no key is set. *)
Theorem auth_status_report :
  let authenticated := str_truthy (perplexity_api_key settings)
                       || str_truthy (openrouter_api_key settings) in
  (forall format,
     exists out,
       auth_status py_repr settings environ format
       = Ok (out, if authenticated then 0 else 4))
  /\ (exists result,
        auth_status py_repr settings environ Format.json
        = Ok ([Dump result], if authenticated then 0 else 4)
        /\ subscripts result [Key "status"] = Ok (JStr "success")
        /\ subscripts result [Key "data"; Key "authenticated"]
           = Ok (JBool authenticated)
        /\ subscripts result [Key "data"; Key "service"]
           = Ok (JStr "perplexity")
        /\ subscripts result [Key "data"; Key "remediation"]
           = (if authenticated then Raise KeyError
              else Ok (JStr
                "Set PERPLEXITY_API_KEY or OPENROUTER_API_KEY env var"))
        /\ forall p,
             subscripts result [Key "data"; Key "providers"; Key (value p);
                                Key "authenticated"]
             = Ok (JBool (str_truthy (api_key settings p)))
             /\ subscripts result [Key "data"; Key "providers"; Key (value p);
                                   Key "token_source"]
                = (if str_truthy (api_key settings p) then
                     Ok (JStr (if env_truthy environ (key_variable p)
                               then "env" else "keyring"))
                   else Raise KeyError))
  /\ (exists lines,
        auth_status py_repr settings environ Format.text
        = Ok (lines, if authenticated then 0 else 4)
        /\ List.length lines = (if authenticated then 3%nat else 4%nat)
        /\ nth_error lines 0
           = Some (Echo ("authenticated: " ++ py_repr (JBool authenticated)))
        /\ nth_error lines 2 = Some (Echo "service: perplexity")).
Proof.
  intros authenticated. subst authenticated. unfold auth_status.
  destruct (str_truthy (perplexity_api_key settings)) eqn:Ep;
    destruct (str_truthy (openrouter_api_key settings)) eqn:Eo;
    (split; [intros [|]; eexists; reflexivity |]);
    (split; [| eexists; repeat split]);
    (eexists; split; [reflexivity |]);
    (split; [reflexivity |]); (split; [reflexivity |]);
    (split; [reflexivity |]); (split; [reflexivity |]);
    intros [|]; unfold api_key; simpl Provider_eqb; cbv iota;
    rewrite ?Ep, ?Eo; split; reflexivity.
Qed.

(** X14. The report agrees with what a chat command without an explicit
    provider will meet: the exit code is 0 exactly when the provider the
    router detects passes the credential check.  It promises nothing for
    search: with the openrouter key alone the report exits with 0 while
    search stops on the missing perplexity key. *)
Theorem auth_status_agrees_with_routing (format : Format.t) (command : string)
  (Hcommand : In command chat_commands) :
  ((exists out, auth_status py_repr settings environ format = Ok (out, 0))
   <-> exists prov,
         _resolve_provider settings None command = Ok prov
         /\ _require_auth settings prov = Ok tt)
  /\ (perplexity_api_key settings = "" ->
      openrouter_api_key settings <> "" ->
      (exists out, auth_status py_repr settings environ format = Ok (out, 0))
      /\ _require_auth settings perplexity
         = Exit 4 (missing_key_error perplexity)).
Proof.
  pose proof (chat_command_not_search command Hcommand) as Hs.
  destruct (auth_status_returns format) as (out & Hout).
  unfold _resolve_provider, _require_auth, api_key, str_truthy in *.
  rewrite Hs. rewrite Hout.
  split.
  - destruct (perplexity_api_key settings =? "")%string eqn:Ep;
      destruct (openrouter_api_key settings =? "")%string eqn:Eo; simpl.
    + split; [intros (o & [=]) |]. intros (prov & [= <-] & H). simpl in H.
      rewrite Ep in H. discriminate.
    + split; [| intros _; now exists out]. intros _. exists openrouter.
      split; [reflexivity |]. simpl. now rewrite Eo.
    + split; [| intros _; now exists out]. intros _. exists perplexity.
      split; [reflexivity |]. simpl. now rewrite Ep.
    + split; [| intros _; now exists out]. intros _. exists perplexity.
      split; [reflexivity |]. simpl. now rewrite Ep.
  - intros Hp Ho. apply String.eqb_neq in Ho.
    rewrite Hp in *. rewrite Ho. simpl.
    split; [now exists out | reflexivity].
Qed.

End AuthStatus.

Lemma auth_status_agrees_with_routing_witness :
  (exists out,
     auth_status sample_repr (mkSettings "" "ok" "" 300000) (fun _ => None)
                 Format.json = Ok (out, 0))
  /\ _require_auth (mkSettings "" "ok" "" 300000) perplexity
     = Exit 4 (missing_key_error perplexity).
Proof.
  refine (proj2 (auth_status_agrees_with_routing sample_repr
            (mkSettings "" "ok" "" 300000) (fun _ => None) Format.json
            "ask" _) _ _).
  - simpl. auto.
  - reflexivity.
  - discriminate.
Defined.

(** * Optional arguments and the two output modes *)

Section OptionsAndModes.

Variable py_repr : json -> string.
Variable settings : Settings.
Variable post : Transport.

(** X15. An optional argument given as the empty string counts as not
    given.  The body of the search request has the key "country" exactly
    when a non-empty country was given, and always carries the query and
    the two limits as given; the messages of a chat request are the user
    message alone, or the system message followed by the user message when
    a non-empty system prompt was given.  So a command called with an
    empty country or system prompt behaves as without it. *)
Theorem empty_options_ignored
  (query : string) (max_results max_tokens_per_page timeout_ms : Z)
  (strip : bool) (provider : option Provider) (format : Format.t) :
  (forall country,
     let body := req_json (search_call settings query max_results
                             max_tokens_per_page country timeout_ms) in
     subscripts body [Key "query"] = Ok (JStr query)
     /\ subscripts body [Key "max_results"] = Ok (JNum max_results)
     /\ subscripts body [Key "max_tokens_per_page"]
        = Ok (JNum max_tokens_per_page)
     /\ subscripts body [Key "country"]
        = match country with
          | Some c => if (c =? "")%string then Raise KeyError else Ok (JStr c)
          | None => Raise KeyError
          end)
  /\ (forall system,
     build_messages system query
     = match system with
       | Some s =>
           if (s =? "")%string
           then [JObj [("role", JStr "user"); ("content", JStr query)]]
           else [JObj [("role", JStr "system"); ("content", JStr s)];
                 JObj [("role", JStr "user"); ("content", JStr query)]]
       | None => [JObj [("role", JStr "user"); ("content", JStr query)]]
       end)
  /\ search py_repr settings post query max_results max_tokens_per_page
            (Some "") format
     = search py_repr settings post query max_results max_tokens_per_page
              None format
  /\ (forall command,
     run_chat py_repr settings post command query (Some "") strip provider
              format
     = run_chat py_repr settings post command query None strip provider
                format).
Proof.
  split; [| split; [| split]].
  - intros [c |]; [| repeat split].
    unfold search_call, str_truthy. cbn zeta.
    destruct (c =? "")%string; repeat split.
  - intros [s |]; [| reflexivity].
    unfold build_messages, str_truthy. destruct (s =? "")%string; reflexivity.
  - reflexivity.
  - intros command. reflexivity.
Qed.

Lemma modes_agree_bind {A : Type} (c : Outcome A)
  (k k' : A -> Outcome (list Stdout)) :
  (forall a, modes_agree (k a) (k' a)) ->
  modes_agree (bind c k) (bind c k').
Proof.
  intros H. destruct c as [a | n err | e]; simpl; [apply H | |];
    split; intros t; discriminate.
Qed.

Lemma chat_tail_modes_agree strip prov model data :
  modes_agree (chat_tail py_repr strip Format.text prov model data)
              (chat_tail py_repr strip Format.json prov model data).
Proof.
  unfold chat_tail.
  apply modes_agree_bind. intros content.
  apply modes_agree_bind. intros content'.
  destruct data as [| b | z | s | l | kv];
    try (split; intros t; discriminate).
  cbn [py_get bind].
  apply modes_agree_bind. intros block.
  apply modes_agree_bind. intros response_text.
  unfold emit.
  match goal with
  | |- context [dumps_ok ?env] => destruct (dumps_ok env)
  end.
  - split; intros t H; [exact H | left; exact H].
  - split; intros t H; [discriminate H | now right].
Qed.

(** X16. The two output modes show the same response.  Whatever the
    arguments, the configuration and the transport, when a chat command
    writes its envelope in structured mode, text mode prints the field
    "response" of that envelope; and when it prints a text in text mode,
    structured mode writes an envelope with that text as "response" or
    ends in the TypeError of the serialiser. *)
Theorem output_modes_agree
  (query : string) (system : option string) (strip : bool)
  (provider : option Provider) :
  modes_agree (ask py_repr settings post query system provider Format.text)
              (ask py_repr settings post query system provider Format.json)
  /\ modes_agree
       (research py_repr settings post query system strip provider Format.text)
       (research py_repr settings post query system strip provider Format.json)
  /\ modes_agree
       (reason py_repr settings post query system strip provider Format.text)
       (reason py_repr settings post query system strip provider Format.json).
Proof.
  split; [| split].
  - unfold ask.
    apply modes_agree_bind. intros prov.
    apply modes_agree_bind. intros _.
    apply modes_agree_bind. intros model.
    apply modes_agree_bind. intros data.
    apply (chat_tail_modes_agree false).
  - unfold research.
    apply modes_agree_bind. intros prov.
    apply modes_agree_bind. intros _.
    apply modes_agree_bind. intros model.
    apply modes_agree_bind. intros data.
    apply (chat_tail_modes_agree strip).
  - unfold reason.
    apply modes_agree_bind. intros prov.
    apply modes_agree_bind. intros _.
    apply modes_agree_bind. intros model.
    apply modes_agree_bind. intros data.
    apply (chat_tail_modes_agree strip).
Qed.

End OptionsAndModes.

(** * Success bodies of the wrong shape *)

Section WrongShape.

Variable py_repr : json -> string.
Variable settings : Settings.
Variable post : Transport.

Lemma format_citations_outcome (x : json) :
  (exists block, _format_citations py_repr x = Ok block)
  \/ _format_citations py_repr x = Raise TypeError.
Proof.
  unfold _format_citations.
  destruct (negb (truthy x)); [left; now eexists |].
  destruct x; simpl; (left; now eexists) || (right; reflexivity).
Qed.

Lemma content_needs_object (data v : json) :
  subscripts data content_path = Ok v -> exists fields, data = JObj fields.
Proof.
  destruct data; try discriminate. intros _. now eexists.
Qed.

(** X17. A success body with the content in place but of the wrong type
    ends in an uncaught TypeError, like one with a "citations" value that
    is true or a number other than zero: the chat commands check neither,
    and nothing of the body is printed. *)
Theorem wrong_typed_body_raises
  command query system strip provider format prov model data
  (Hcommand : In command chat_commands)
  (Hanswer : chat_answered settings post provider command system query prov
                           model data) :
  (forall v,
     subscripts data content_path = Ok v ->
     (forall s, v <> JStr s) ->
     run_chat py_repr settings post command query system strip provider format
     = Raise TypeError)
  /\ (forall c x,
     subscripts data content_path = Ok (JStr c) ->
     py_get data "citations" (JArr []) = Ok x ->
     x = JBool true \/ (exists z, z <> 0 /\ x = JNum z) ->
     run_chat py_repr settings post command query system strip provider format
     = Raise TypeError).
Proof.
  rewrite (run_chat_tail _ _ _ _ _ _ _ _ _ _ _ _ Hcommand Hanswer).
  split.
  - intros v Hv Hns.
    destruct (content_needs_object data v Hv) as [fields ->].
    unfold chat_tail. rewrite Hv. cbn [bind].
    destruct (strips command strip).
    + destruct v; try reflexivity. exfalso. now apply (Hns s).
    + cbn [bind py_get].
      destruct (format_citations_outcome
                  match assoc "citations" fields with
                  | Some v0 => v0
                  | None => JArr []
                  end) as [[block ->] | ->]; [| reflexivity].
      cbn [bind]. destruct v; try reflexivity. exfalso. now apply (Hns s).
  - intros c x Hc Hx Hbad.
    unfold chat_tail. rewrite Hc. cbn [bind].
    assert (Hf : _format_citations py_repr x = Raise TypeError).
    { destruct Hbad as [-> | (z & Hz & ->)]; [reflexivity |].
      unfold _format_citations. simpl.
      apply Z.eqb_neq in Hz. now rewrite Hz. }
    destruct (strips command strip); cbn [bind strip_content];
      rewrite Hx; cbn [bind]; now rewrite Hf.
Qed.

End WrongShape.

Lemma wrong_typed_body_raises_witness :
  run_chat sample_repr sample_settings
    (reply_with 200 []
       (Some (JObj [("choices",
                     JArr [JObj [("message", JObj [("content", JNull)])]])])))
    "ask" "q" None false None Format.text
  = Raise TypeError.
Proof.
  refine (proj1 (wrong_typed_body_raises sample_repr sample_settings _
            "ask" "q" None false None Format.text perplexity "sonar-pro"
            (JObj [("choices",
                    JArr [JObj [("message", JObj [("content", JNull)])]])])
            _ _) JNull _ _).
  - simpl. auto.
  - repeat split.
  - reflexivity.
  - discriminate.
Defined.

Lemma output_modes_agree_witness :
  response_of
    (ask sample_repr sample_settings
         (reply_with 200 [] (Some (chat_body "X" []))) "q" None None
         Format.text) = Some "X"
  /\ (response_of
        (ask sample_repr sample_settings
           (reply_with 200 []
              (Some (JObj [("choices",
                            JArr [JObj [("message",
                                         JObj [("content", JStr "X")])]]);
                           ("usage", JNum 18446744073709551616)])))
           "q" None None Format.json) = Some "X"
      \/ ask sample_repr sample_settings
           (reply_with 200 []
              (Some (JObj [("choices",
                            JArr [JObj [("message",
                                         JObj [("content", JStr "X")])]]);
                           ("usage", JNum 18446744073709551616)])))
           "q" None None Format.json = Raise TypeError).
Proof.
  split.
  - exact (proj1 (proj1 (output_modes_agree sample_repr sample_settings
             (reply_with 200 [] (Some (chat_body "X" []))) "q" None false None))
             "X" eq_refl).
  - exact (proj2 (proj1 (output_modes_agree sample_repr sample_settings
             (reply_with 200 []
                (Some (JObj [("choices",
                              JArr [JObj [("message",
                                           JObj [("content", JStr "X")])]]);
                             ("usage", JNum 18446744073709551616)])))
             "q" None false None))
             "X" eq_refl).
Defined.
